(** * promptkit: the Good PM stop hook

    This file embeds [good-pm/hooks/good-pm-session-update.py]
    ([load_transcript], [main], the [__main__] guard) and proves
    properties of it: the decision of the hook, its error behaviour,
    and what [load_transcript] makes of a transcript file.

    Conventions of the embedding.
    - A Python [str] is a [string]; its characters are the code points
      0..255, and [lower]/[strip] are Python's on that range; a text
      with a character above U+00FF is outside the embedding.
    - A value produced by the [json] module is a [json] tree; Python's
      [None] is [JNull], a [dict] is an association list with distinct
      keys, a Python [float] is a binary64 [float].
    - An exception that no handler of the program catches is a [Raise]
      of the [result] monad; the two handlers of the program
      ([json.JSONDecodeError], [(IOError, OSError)]) are written out
      where the program has them.
    - Standard output is a pipe or a file, as it is when the hook is
      run: what [print] writes stays in the buffer until the process
      ends. *)

From Stdlib Require Import ZArith Floats Ascii.
From stdpp Require Import base list strings.

Local Open Scope Z_scope.

(** ** Python strings *)

Module PyStr.

(** Code point of a character. *)
Definition ord (c : ascii) : N := Ascii.N_of_ascii c.

(** [str.isspace] on one character, code points below 256. *)
Definition is_space (c : ascii) : bool :=
  let n := ord c in
  ((9 <=? n) && (n <=? 13) || (28 <=? n) && (n <=? 32)
   || (n =? 133) || (n =? 160))%N.

(** [str.lower] on one character: A-Z and the Latin-1 capitals. *)
Definition lower_char (c : ascii) : ascii :=
  let n := ord c in
  if ((65 <=? n) && (n <=? 90) || (192 <=? n) && (n <=? 214)
      || (216 <=? n) && (n <=? 222))%N
  then Ascii.ascii_of_N (n + 32) else c.

Fixpoint lower (s : string) : string :=
  match s with
  | EmptyString => EmptyString
  | String c s' => String (lower_char c) (lower s')
  end.

Fixpoint lstrip (s : string) : string :=
  match s with
  | EmptyString => EmptyString
  | String c s' => if is_space c then lstrip s' else s
  end.

Definition rstrip (s : string) : string :=
  String.rev (lstrip (String.rev s)).

(** [s.strip()] *)
Definition strip (s : string) : string := rstrip (lstrip s).

(** [s.startswith(p)] *)
Fixpoint startswith (p s : string) : bool :=
  match p, s with
  | EmptyString, _ => true
  | String a p', String b s' => bool_decide (a = b) && startswith p' s'
  | String _ _, EmptyString => false
  end.

(** [sub in s] *)
Fixpoint contains (sub s : string) : bool :=
  startswith sub s ||
  match s with
  | EmptyString => false
  | String _ s' => contains sub s'
  end.

(** [sep.join(parts)] for parts that are all [str]. *)
Fixpoint join (sep : string) (parts : list string) : string :=
  match parts with
  | [] => ""
  | [x] => x
  | x :: rest => x +:+ sep +:+ join sep rest
  end.

(** [any(k in s for k in keys)] *)
Definition any_in (keys : list string) (s : string) : bool :=
  existsb (fun k => contains k s) keys.

(** The characters of a string, each as a one-character string. *)
Fixpoint chars (s : string) : list string :=
  match s with
  | EmptyString => []
  | String c s' => String c EmptyString :: chars s'
  end.

(** Is the NUL character in the string? *)
Fixpoint has_nul (s : string) : bool :=
  match s with
  | EmptyString => false
  | String c s' => (ord c =? 0)%N || has_nul s'
  end.

End PyStr.

(** ** JSON values as the [json] module builds them *)

#[local] Set Warnings "-register-all".

Inductive json : Type :=
| JNull
| JBool (b : bool)
| JInt (z : Z)
| JFloat (f : float)
| JString (s : string)
| JArray (items : list json)
| JObject (fields : list (string * json)).

(** ** Uncaught exceptions *)

Inductive exn : Type :=
| TypeError | AttributeError | ValueError | RecursionError | OSError.

Inductive result (A : Type) : Type :=
| Ok (a : A)
| Raise (e : exn).
Arguments Ok {A} a.
Arguments Raise {A} e.

Definition bind {A B : Type} (m : result A) (k : A → result B) : result B :=
  match m with
  | Ok a => k a
  | Raise e => Raise e
  end.

(** [let* x := m in k] sequences two statements: [k] runs only when [m]
    returns. *)
Notation "'let*' x ':=' m 'in' k" := (bind m (fun x => k))
  (at level 10, x pattern, m at level 100, k at level 200).

(** What [json.loads] does with a text: it returns a value, raises
    [json.JSONDecodeError], or raises something else, which the handlers
    of the program do not catch ([ValueError] for an integer with more
    digits than the interpreter converts, [RecursionError] for a text
    nested too deeply). *)
Inductive parsed : Type :=
| Parsed (value : json)
| JSONDecodeError
| LoadsRaised (e : exn).

(** What reading the standard input gives: its text, or an exception
    ([UnicodeDecodeError], a [ValueError], for bytes that do not
    decode). *)
Inductive stdin_view : Type :=
| StdinText (text : string)
| StdinRaises (e : exn).

Module Py.

(** Truth value of an object ([if x:]). *)
Definition truthy (j : json) : bool :=
  match j with
  | JNull => false
  | JBool b => b
  | JInt z => negb (z =? 0)
  | JFloat f => negb (PrimFloat.eqb f 0%float)
  | JString s => match s with EmptyString => false | _ => true end
  | JArray l => match l with [] => false | _ => true end
  | JObject kv => match kv with [] => false | _ => true end
  end.

(** Lookup in a [dict]. *)
Fixpoint dict_lookup (kv : list (string * json)) (k : string) : option json :=
  match kv with
  | [] => None
  | (k', v) :: rest => if bool_decide (k' = k) then Some v else dict_lookup rest k
  end.

(** [obj.get(k, default)]: only a [dict] has the method. *)
Definition get (obj : json) (k : string) (dflt : json) : result json :=
  match obj with
  | JObject kv => Ok (default dflt (dict_lookup kv k))
  | _ => Raise AttributeError
  end.

End Py.

(** More of Python's object protocol, as the hook uses it. *)
Module PyObj.

(** [x == s] for a string literal [s]. *)
Definition eq_str (x : json) (s : string) : bool :=
  match x with
  | JString s' => bool_decide (s' = s)
  | _ => false
  end.

(** [k in obj]: key of a dict, element of a list, substring of a
    string; anything else is not iterable. *)
Definition contains (k : string) (obj : json) : result bool :=
  match obj with
  | JObject kv => Ok (bool_decide (is_Some (Py.dict_lookup kv k)))
  | JArray l => Ok (existsb (fun x => eq_str x k) l)
  | JString s => Ok (PyStr.contains k s)
  | _ => Raise TypeError
  end.

(** [obj[k]] for a string key [k], evaluated after [k in obj] held. *)
Definition getitem (obj : json) (k : string) : result json :=
  match obj with
  | JObject kv => Ok (default JNull (Py.dict_lookup kv k))
  | _ => Raise TypeError
  end.

(** [for x in obj]: the items a loop visits. *)
Definition iter (obj : json) : result (list json) :=
  match obj with
  | JArray l => Ok l
  | JString s => Ok (JString <$> PyStr.chars s)
  | JObject kv => Ok ((fun p => JString p.1) <$> kv)
  | _ => Raise TypeError
  end.

(** [reversed(obj)] *)
Definition reversed (obj : json) : result (list json) :=
  let* l := iter obj in Ok (reverse l).

(** [x.lower()]: only [str] has the method. *)
Definition lower (x : json) : result string :=
  match x with
  | JString s => Ok (PyStr.lower s)
  | _ => Raise AttributeError
  end.

(** The items of a sequence as strings, when each of them is a [str]. *)
Fixpoint all_str (items : list json) : result (list string) :=
  match items with
  | [] => Ok []
  | JString s :: rest => let* ss := all_str rest in Ok (s :: ss)
  | _ :: _ => Raise TypeError
  end.

(** [sep.join(items)]: every item has to be a [str]. *)
Definition join (sep : string) (items : list json) : result string :=
  let* parts := all_str items in Ok (PyStr.join sep parts).

End PyObj.

(** ** The process environment of the hook *)

(** How the iteration over an open file stops: at the end of the file,
    on an [OSError] of the read, or on bytes that do not decode
    ([UnicodeDecodeError], a [ValueError]). *)
Inductive file_end : Type := Eof | ReadOSError | ReadDecodeError.

(** What the loop [for line in f] sees of a file: the lines it is given
    and how the iteration stops. *)
Definition file_view : Type := (list string * file_end)%type.

(** The environment: [Path(p).exists()]; what [open(path, "r")] gives
    for a path and for a file descriptor: a file, [None] when the call
    raises an [OSError], or another exception ([UnicodeEncodeError], a
    [ValueError], for a path the file system encoding cannot express;
    [ValueError] for a negative descriptor). *)
Record world : Type := World {
  path_exists : string → bool;
  open_text : string → result (option file_view);
  open_fd : Z → result (option file_view);
}.

(** [open(p, "r")] for the value [p] the hook passes: Python decides by
    the type of [p], the environment by its value. *)
Definition py_open (w : world) (p : json) : result (option file_view) :=
  match p with
  | JString s => if PyStr.has_nul s then Raise ValueError else open_text w s
  | JInt z => open_fd w z
  | JBool b => open_fd w (if b then 1 else 0)
  | JNull | JFloat _ | JArray _ | JObject _ => Raise TypeError
  end.

(** The descriptor the [with] block of [load_transcript] has closed when
    it is left: a path that is an [int] (a [bool] is one) is itself the
    descriptor, and the file object [open] made of it closes it. *)
Definition closed_descriptor (w : world) (p : json) : option Z :=
  let fd :=
    match p with
    | JInt z => Some z
    | JBool b => Some (if b then 1 else 0)
    | _ => None
    end in
  match fd with
  | Some z =>
      match open_fd w z with
      | Ok (Some _) => Some z
      | _ => None
      end
  | None => None
  end.

(** ** The hook *)

Section Hook.

(** [json.loads]. *)
Variable json_loads : string → parsed.

(** [json.load(sys.stdin)]: read all of it, then [json.loads]. *)
Definition json_load (stdin : stdin_view) : parsed :=
  match stdin with
  | StdinText text => json_loads text
  | StdinRaises e => LoadsRaised e
  end.

Definition entry_of (role content : json) : json :=
  JObject [("role", role); ("content", content)].

(** The body of [for line in f] in [load_transcript]: the transcript
    with what the line appends. *)
Definition load_line (transcript : list json) (line : string)
  : result (list json) :=
  let line := PyStr.strip line in
  if Py.truthy (JString line) then
    match json_loads line with
    | JSONDecodeError => Ok transcript
    | LoadsRaised e => Raise e
    | Parsed entry =>
        let* has_type := PyObj.contains "type" entry in
        if has_type then
          let* ty := PyObj.getitem entry "type" in
          if PyObj.eq_str ty "user" || PyObj.eq_str ty "assistant" then
            let* message := Py.get entry "message" (JObject []) in
            let* content := Py.get message "content" (JString "") in
            Ok (transcript ++ [entry_of ty content])
          else Ok transcript
        else Ok transcript
    end
  else Ok transcript.

Fixpoint load_lines (transcript : list json) (lines : list string)
  : result (list json) :=
  match lines with
  | [] => Ok transcript
  | line :: rest => let* t := load_line transcript line in load_lines t rest
  end.

Definition load_transcript (w : world) (transcript_path : json)
  : result json :=
  let* opened := py_open w transcript_path in
  match opened with
  | None => Ok (JArray [])
  | Some (lines, stop) =>
      let* t := load_lines [] lines in
      match stop with
      | Eof | ReadOSError => Ok (JArray t)
      | ReadDecodeError => Raise ValueError
      end
  end.

Definition pm_keywords : list string :=
  ["good-pm"; ".good-pm"; "spec"; "issue"; "create-spec";
   "create-issues"; "implementation"; "acceptance criteria"].

Definition update_indicators : list string :=
  ["session context updated"; "updated session"; "notes for next session";
   "session handoff"; "updated .good-pm/session"; "no updates needed";
   "no changes needed"].

Definition reason : string :=
  "Review session context before ending. Check `.good-pm/session/current.md` and apply the Future Self test. Say 'no updates needed' or update the file, then complete your response.".

Definition approve_obj : json := JObject [("decision", JString "approve")].
Definition block_obj : json :=
  JObject [("decision", JString "block"); ("reason", JString reason)].

(** The inner loop [for block in content] with its [break]. *)
Fixpoint any_tool_use (blocks : list json) : result bool :=
  match blocks with
  | [] => Ok false
  | block :: rest =>
      let* ty := Py.get block "type" JNull in
      if PyObj.eq_str ty "tool_use" then Ok true else any_tool_use rest
  end.

(** The generator [block.get("text", "") for block in content
    if block.get("type") == "text"]. *)
Fixpoint text_items (blocks : list json) : result (list json) :=
  match blocks with
  | [] => Ok []
  | block :: rest =>
      let* ty := Py.get block "type" JNull in
      if PyObj.eq_str ty "text" then
        let* t := Py.get block "text" (JString "") in
        let* ts := text_items rest in
        Ok (t :: ts)
      else text_items rest
  end.

(** [" ".join(...)] over that generator. *)
Definition joined_text (blocks : list json) : result string :=
  let* items := text_items blocks in
  PyObj.join " " items.

(** One turn of [for msg in transcript]: the two flags after it. *)
Definition scan_message (flags : bool * bool) (msg : json)
  : result (bool * bool) :=
  let '(has_tool_usage, has_pm_activity) := flags in
  let* content := Py.get msg "content" (JString "") in
  let* has_tool_usage :=
    match content with
    | JArray blocks =>
        let* found := any_tool_use blocks in Ok (has_tool_usage || found)
    | _ => Ok has_tool_usage
    end in
  let* has_pm_activity :=
    match content with
    | JString s =>
        Ok (has_pm_activity || PyStr.any_in pm_keywords (PyStr.lower s))
    | JArray blocks =>
        let* text_content := joined_text blocks in
        Ok (has_pm_activity
            || PyStr.any_in pm_keywords (PyStr.lower text_content))
    | _ => Ok has_pm_activity
    end in
  Ok (has_tool_usage, has_pm_activity).

Fixpoint scan_messages (flags : bool * bool) (msgs : list json)
  : result (bool * bool) :=
  match msgs with
  | [] => Ok flags
  | msg :: rest => let* f := scan_message flags msg in scan_messages f rest
  end.

(** [for msg in reversed(transcript)] with its [break]: the value of
    [last_assistant_msg] after the loop ([JNull] is [None]). *)
Fixpoint last_assistant (rmsgs : list json) : result json :=
  match rmsgs with
  | [] => Ok JNull
  | msg :: rest =>
      let* role := Py.get msg "role" JNull in
      if PyObj.eq_str role "assistant" then
        let* content := Py.get msg "content" (JString "") in
        match content with
        | JArray blocks => let* t := joined_text blocks in Ok (JString t)
        | _ => Ok content
        end
      else last_assistant rest
  end.

(** [print(json.dumps(obj)); return 0].  Standard output is the list
    of the objects printed, each standing for the line
    [json.dumps(obj)]. *)
Definition print_and_return (obj : json) : result (list json * Z) :=
  Ok ([obj], 0).

Definition main (w : world) (stdin : stdin_view)
  : result (list json * Z) :=
  match json_load stdin with
  | JSONDecodeError => print_and_return approve_obj
  | LoadsRaised e => Raise e
  | Parsed hook_input =>
      let* transcript_path := Py.get hook_input "transcript_path" JNull in
      let* transcript :=
        (if Py.truthy transcript_path
         then load_transcript w transcript_path
         else Py.get hook_input "transcript" (JArray [])) in
      let* stop_hook_active := Py.get hook_input "stop_hook_active" (JBool false) in
      if Py.truthy stop_hook_active then print_and_return approve_obj
      else if negb (path_exists w ".good-pm") then
        print_and_return approve_obj
      else if negb (path_exists w ".good-pm/session") then
        print_and_return approve_obj
      else
        let* msgs := PyObj.iter transcript in
        let* (has_tool_usage, has_pm_activity) := scan_messages (false, false) msgs in
        if negb has_tool_usage && negb has_pm_activity then
          print_and_return approve_obj
        else
          let* rmsgs := PyObj.reversed transcript in
          let* last_assistant_msg := last_assistant rmsgs in
          let* updated :=
            (if Py.truthy last_assistant_msg then
               let* lower_msg := PyObj.lower last_assistant_msg in
               Ok (PyStr.any_in update_indicators lower_msg)
             else Ok false) in
          if updated then print_and_return approve_obj
          else print_and_return block_obj
  end.

(** Standard output, descriptor 1, is closed when [main] is done: the
    transcript path was that descriptor and [load_transcript] has
    closed it. *)
Definition stdout_closed (w : world) (stdin : stdin_view) : bool :=
  match json_load stdin with
  | Parsed hook_input =>
      match Py.get hook_input "transcript_path" JNull with
      | Ok p =>
          Py.truthy p
          && match closed_descriptor w p with
             | Some fd => fd =? 1
             | None => false
             end
      | Raise _ => false
      end
  | _ => false
  end.

(** [sys.exit(main())]: the process ends with the lines printed and an
    exit status, or with the traceback of an uncaught exception.  When
    [main] returns and standard output is closed, what [print] left in
    the buffer cannot be written: nothing is printed and the status is
    120. *)
Inductive outcome : Type :=
| Exited (stdout : list json) (status : Z)
| Traceback (e : exn).

Definition run (w : world) (stdin : stdin_view) : outcome :=
  match main w stdin with
  | Ok (out, rc) =>
      if stdout_closed w stdin then Exited [] 120 else Exited out rc
  | Raise e => Traceback e
  end.

End Hook.

(** ** A reader for JSON texts

    The theorems below hold for any [json_loads].  To run the hook on
    concrete texts we use this reader, which follows [json.loads] on the
    texts built from objects, arrays, strings (with the two-character
    escapes and the [\u] escapes of code points below 256), integers,
    [true], [false] and [null].  A number with a fraction or an
    exponent, an integer of more than 4300 digits and a text nested
    more deeply than the interpreter's recursion limit are outside this
    fragment; the scenarios below use none. *)
Module MiniJson.

Definition is_ws (c : ascii) : bool :=
  match c with
  | " " | "009" | "010" | "013" => true
  | _ => false
  end%char.

Fixpoint skip_ws (s : string) : string :=
  match s with
  | String c r => if is_ws c then skip_ws r else s
  | EmptyString => EmptyString
  end.

Definition digit (c : ascii) : option Z :=
  let n := PyStr.ord c in
  if ((48 <=? n) && (n <=? 57))%N then Some (Z.of_N n - 48) else None.

Fixpoint digits (acc : Z) (s : string) : Z * string :=
  match s with
  | String c r =>
      match digit c with
      | Some d => digits (10 * acc + d) r
      | None => (acc, s)
      end
  | EmptyString => (acc, s)
  end.

(** After the digits of an integer no fraction or exponent may start. *)
Definition int_ends (s : string) : bool :=
  match s with
  | String c _ =>
      negb (bool_decide (c = "."%char) || bool_decide (c = "e"%char)
            || bool_decide (c = "E"%char))
  | EmptyString => true
  end.

(** A JSON integer without its sign: [0], or digits that do not
    start with [0]. *)
Definition natural (s : string) : option (Z * string) :=
  match s with
  | String c r =>
      match digit c with
      | Some 0 => if int_ends r then Some (0, r) else None
      | Some d => let '(n, r') := digits d r in
                  if int_ends r' then Some (n, r') else None
      | None => None
      end
  | EmptyString => None
  end.

Definition unescape (c : ascii) : option ascii :=
  match c with
  | "034" => Some "034" | "\" => Some "\" | "/" => Some "/"
  | "b" => Some "008" | "f" => Some "012" | "n" => Some "010"
  | "r" => Some "013" | "t" => Some "009"
  | _ => None
  end%char.

Definition hex (c : ascii) : option N :=
  let n := PyStr.ord c in
  if ((48 <=? n) && (n <=? 57))%N then Some (n - 48)%N
  else if ((97 <=? n) && (n <=? 102))%N then Some (n - 87)%N
  else if ((65 <=? n) && (n <=? 70))%N then Some (n - 55)%N
  else None.

(** The character of the escape [\uXXXX], for a code point below 256. *)
Definition hex4 (a b c d : ascii) : option ascii :=
  match hex a, hex b, hex c, hex d with
  | Some 0%N, Some 0%N, Some x, Some y => Some (Ascii.ascii_of_N (16 * x + y))
  | _, _, _, _ => None
  end.

(** The characters of a string literal after its opening quote, and
    the text after its closing quote. *)
Fixpoint string_body (s : string) : option (string * string) :=
  match s with
  | EmptyString => None
  | String c r =>
      if bool_decide (c = "034"%char) then Some (EmptyString, r)
      else if bool_decide (c = "\"%char) then
        match r with
        | String "u" (String h1 (String h2 (String h3 (String h4 r')))) =>
            match hex4 h1 h2 h3 h4, string_body r' with
            | Some c', Some (body, rest) => Some (String c' body, rest)
            | _, _ => None
            end
        | String e r' =>
            match unescape e, string_body r' with
            | Some c', Some (body, rest) => Some (String c' body, rest)
            | _, _ => None
            end
        | EmptyString => None
        end%char
      else if (PyStr.ord c <? 32)%N then None
      else
        match string_body r with
        | Some (body, rest) => Some (String c body, rest)
        | None => None
        end
  end.

(** [d[k] = v] *)
Fixpoint dict_set (kv : list (string * json)) (k : string) (v : json)
  : list (string * json) :=
  match kv with
  | [] => [(k, v)]
  | (k', v') :: rest =>
      if bool_decide (k' = k) then (k', v) :: rest
      else (k', v') :: dict_set rest k v
  end.

Fixpoint value (fuel : nat) (s : string) : option (json * string) :=
  match fuel with
  | O => None
  | S fuel =>
      match s with
      | String "n" (String "u" (String "l" (String "l" r))) => Some (JNull, r)
      | String "t" (String "r" (String "u" (String "e" r))) =>
          Some (JBool true, r)
      | String "f" (String "a" (String "l" (String "s" (String "e" r)))) =>
          Some (JBool false, r)
      | String "034" r =>
          match string_body r with
          | Some (body, rest) => Some (JString body, rest)
          | None => None
          end
      | String "-" r =>
          match natural r with
          | Some (n, rest) => Some (JInt (- n), rest)
          | None => None
          end
      | String "[" r =>
          match skip_ws r with
          | String "]" rest => Some (JArray [], rest)
          | r' => elements fuel [] r'
          end
      | String "{" r =>
          match skip_ws r with
          | String "}" rest => Some (JObject [], rest)
          | r' => members fuel [] r'
          end
      | _ =>
          match natural s with
          | Some (n, rest) => Some (JInt n, rest)
          | None => None
          end
      end
  end%char
with elements (fuel : nat) (acc : list json) (s : string)
  : option (json * string) :=
  match fuel with
  | O => None
  | S fuel =>
      match value fuel s with
      | Some (v, rest) =>
          match skip_ws rest with
          | String "," r => elements fuel (acc ++ [v]) (skip_ws r)
          | String "]" r => Some (JArray (acc ++ [v]), r)
          | _ => None
          end
      | None => None
      end
  end%char
with members (fuel : nat) (acc : list (string * json)) (s : string)
  : option (json * string) :=
  match fuel with
  | O => None
  | S fuel =>
      match s with
      | String "034" r =>
          match string_body r with
          | Some (key, rest) =>
              match skip_ws rest with
              | String ":" r' =>
                  match value fuel (skip_ws r') with
                  | Some (v, rest') =>
                      match skip_ws rest' with
                      | String "," r'' =>
                          members fuel (dict_set acc key v) (skip_ws r'')
                      | String "}" r'' =>
                          Some (JObject (dict_set acc key v), r'')
                      | _ => None
                      end
                  | None => None
                  end
              | _ => None
              end
          | None => None
          end
      | _ => None
      end
  end%char.

(** The value of a text of the fragment, if it is one. *)
Definition read (s : string) : option json :=
  match value (2 * String.length s + 2) (skip_ws s) with
  | Some (v, rest) =>
      match skip_ws rest with
      | EmptyString => Some v
      | _ => None
      end
  | None => None
  end.

(** [json.loads(s)] on the fragment. *)
Definition loads (s : string) : parsed :=
  match read s with
  | Some v => Parsed v
  | None => JSONDecodeError
  end.

(** A JSON text written with ['] for the double quote, which a Rocq
    string literal cannot hold undoubled. *)
Fixpoint quoted (s : string) : string :=
  match s with
  | EmptyString => EmptyString
  | String c r =>
      String (if bool_decide (c = "'"%char) then "034"%char else c) (quoted r)
  end.

End MiniJson.

(** * What the specification says about the hook *)

(** ** Substrings *)

(** [k] occurs in [s]. *)
Definition occurs_in (k s : string) : Prop :=
  ∃ pre post, s = pre +:+ k +:+ post.

(** [k] occurs in [s] when the case of letters is ignored: some slice of
    [s] and [k] have the same lower-case form. *)
Definition occurs_in_nocase (k s : string) : Prop :=
  ∃ pre mid post, s = pre +:+ mid +:+ post ∧ PyStr.lower mid = PyStr.lower k.

(** The text contains one of the phrases, case ignored. *)
Definition mentions (phrases : list string) (text : string) : Prop :=
  ∃ k, k ∈ phrases ∧ occurs_in_nocase k text.

(** ** Messages and their content blocks *)

(** The field [k] of a JSON object. *)
Definition field (obj : json) (k : string) : option json :=
  match obj with
  | JObject kv => Py.dict_lookup kv k
  | _ => None
  end.

Definition is_object (j : json) : Prop :=
  match j with
  | JObject _ => True
  | _ => False
  end.

(** The content of a transcript message; a message without one counts
    as an empty text. *)
Definition content_of (msg : json) : json :=
  default (JString "") (field msg "content").

(** The block is of the given type. *)
Definition is_type (ty : string) (block : json) : bool :=
  match field block "type" with
  | Some (JString t) => bool_decide (t = ty)
  | _ => false
  end.

(** The message is spoken by the assistant. *)
Definition is_assistant (msg : json) : bool :=
  match field msg "role" with
  | Some (JString r) => bool_decide (r = "assistant")
  | _ => false
  end.

(** The text a block contributes: that of a text block, nothing for the
    other blocks. *)
Definition text_of_block (block : json) : option string :=
  if is_type "text" block then
    Some (match field block "text" with
          | Some (JString t) => t
          | _ => ""
          end)
  else None.

(** The text of a message: the content when it is a string, the texts of
    its text blocks joined by one space when it is a list of blocks. *)
Definition message_text (content : json) : string :=
  match content with
  | JString s => s
  | JArray blocks => PyStr.join " " (omap text_of_block blocks)
  | _ => ""
  end.

(** ** Well-formed transcripts *)

(** A content block is an object; the text of a text block, when it has
    one, is a string. *)
Definition wf_block (block : json) : Prop :=
  match block with
  | JObject kv =>
      is_type "text" block = true →
      ∀ v, Py.dict_lookup kv "text" = Some v → ∃ t, v = JString t
  | _ => False
  end.

(** A content is a string, a list of well-formed blocks, or a value
    that is neither and counts as false ([None], [0], [False], [{}]). *)
Definition wf_content (content : json) : Prop :=
  match content with
  | JString _ => True
  | JArray blocks => Forall wf_block blocks
  | other => Py.truthy other = false
  end.

(** A transcript entry is an object with a well-formed content. *)
Definition wf_entry (msg : json) : Prop :=
  is_object msg ∧ wf_content (content_of msg).

(** ** The decision of the hook, in the words of the specification *)

(** Some message of the transcript has a [tool_use] content block. *)
Definition has_tool_use (t : list json) : Prop :=
  ∃ msg blocks block,
    msg ∈ t ∧ content_of msg = JArray blocks ∧ block ∈ blocks
    ∧ is_type "tool_use" block = true.

(** The text of some message contains a PM keyword. *)
Definition pm_activity (t : list json) : Prop :=
  ∃ msg, msg ∈ t ∧ mentions pm_keywords (message_text (content_of msg)).

(** [m] is the last assistant message of the transcript. *)
Definition last_assistant_is (t : list json) (m : json) : Prop :=
  ∃ before after,
    t = before ++ m :: after ∧ is_assistant m = true
    ∧ Forall (fun x => is_assistant x = false) after.

(** There is a last assistant message and it contains an update
    indicator. *)
Definition session_updated (t : list json) : Prop :=
  ∃ m, last_assistant_is t m
       ∧ mentions update_indicators (message_text (content_of m)).

(** All the conditions under which the hook is to block. *)
Definition should_block (w : world) (hook_input : json) (t : list json)
  : Prop :=
  Py.truthy (default (JBool false) (field hook_input "stop_hook_active"))
    = false
  ∧ path_exists w ".good-pm" = true
  ∧ path_exists w ".good-pm/session" = true
  ∧ (has_tool_use t ∨ pm_activity t)
  ∧ ¬ session_updated t.

(** The content of the last assistant message as [main] keeps it: the
    joined text for a list of blocks, the content itself otherwise. *)
Definition kept_content (content : json) : json :=
  match content with
  | JArray _ => JString (message_text content)
  | _ => content
  end.

(** The same conditions, computed. *)
Definition tool_use_in (msg : json) : bool :=
  match content_of msg with
  | JArray blocks => existsb (is_type "tool_use") blocks
  | _ => false
  end.

Definition keyword_in (phrases : list string) (msg : json) : bool :=
  PyStr.any_in phrases (PyStr.lower (message_text (content_of msg))).

Definition updated_b (t : list json) : bool :=
  match List.find is_assistant (reverse t) with
  | Some m => keyword_in update_indicators m
  | None => false
  end.

Definition should_block_b (w : world) (hook_input : json) (t : list json)
  : bool :=
  negb (Py.truthy (default (JBool false) (field hook_input "stop_hook_active")))
  && path_exists w ".good-pm"
  && path_exists w ".good-pm/session"
  && (existsb tool_use_in t || existsb (keyword_in pm_keywords) t)
  && negb (updated_b t).

Section HookSpec.

Variable json_loads : string → parsed.

(** The transcript [main] works on: loaded from [transcript_path] when
    the input names one, else the [transcript] field of the input. *)
Definition the_transcript (w : world) (hook_input : json) : result json :=
  let* transcript_path := Py.get hook_input "transcript_path" JNull in
  if Py.truthy transcript_path
  then load_transcript json_loads w transcript_path
  else Py.get hook_input "transcript" (JArray []).

(** *** [load_transcript], in the words of the specification *)

(** The content of the entry for a line: [message.content], the empty
    string when [message] or [content] is absent. *)
Definition message_content (entry : json) : json :=
  match field entry "message" with
  | Some message => default (JString "") (field message "content")
  | None => JString ""
  end.

(** The entry a line of the file contributes, if any. *)
Definition entry_for (line : string) : option json :=
  match PyStr.strip line with
  | EmptyString => None
  | l =>
      match json_loads l with
      | Parsed (JObject kv) =>
          match Py.dict_lookup kv "type" with
          | Some (JString t) =>
              if bool_decide (t = "user" ∨ t = "assistant")
              then Some (entry_of (JString t) (message_content (JObject kv)))
              else None
          | _ => None
          end
      | _ => None
      end
  end.


End HookSpec.

(** * More of what the hook does *)

(** ** The faults of a transcript line *)

Section LineFaults.

Variable json_loads : string → parsed.

(** The exception the body of the loop of [load_transcript] raises on a
    line, if it raises one: what [json.loads] raises besides
    [JSONDecodeError], [in] on a number, a boolean or [None], the index
    ["type"] into a string or a list that contains it, and [.get] on
    the message of a user or assistant entry when that message is not
    an object. *)
Definition line_fault (line : string) : option exn :=
  match PyStr.strip line with
  | EmptyString => None
  | l =>
      match json_loads l with
      | JSONDecodeError => None
      | LoadsRaised e => Some e
      | Parsed (JObject kv) =>
          match Py.dict_lookup kv "type" with
          | Some (JString t) =>
              if bool_decide (t = "user" ∨ t = "assistant") then
                match Py.dict_lookup kv "message" with
                | None | Some (JObject _) => None
                | Some _ => Some AttributeError
                end
              else None
          | _ => None
          end
      | Parsed (JArray items) =>
          if existsb (fun x => PyObj.eq_str x "type") items
          then Some TypeError else None
      | Parsed (JString s) =>
          if PyStr.contains "type" s then Some TypeError else None
      | Parsed _ => Some TypeError
      end
  end.

(** The fault of the first line that has one. *)
Fixpoint first_fault (lines : list string) : option exn :=
  match lines with
  | [] => None
  | line :: rest =>
      match line_fault line with
      | Some e => Some e
      | None => first_fault rest
      end
  end.

(** The line is blank or does not parse. *)
Definition skipped (line : string) : bool :=
  match PyStr.strip line with
  | EmptyString => true
  | l => match json_loads l with JSONDecodeError => true | _ => false end
  end.

End LineFaults.

(** An entry of a loaded transcript: exactly a role, user or assistant,
    and a content. *)
Definition is_entry (e : json) : Prop :=
  ∃ r c, e = entry_of (JString r) c ∧ (r = "user" ∨ r = "assistant").

(** The messages [main] iterates over, for a transcript value. *)
Definition messages_of (transcript : json) : list json :=
  match PyObj.iter transcript with
  | Ok msgs => msgs
  | Raise _ => []
  end.

(** The PM keywords that contain no other one. *)
Definition core_keywords : list string :=
  ["good-pm"; "spec"; "issue"; "implementation"; "acceptance criteria"].

(** A content the first loop of [main] gets through: anything but a
    list with an ill-formed block. *)
Definition joinable (content : json) : Prop :=
  match content with
  | JArray blocks => Forall wf_block blocks
  | _ => True
  end.

(** A message the first loop of [main] gets through. *)
Definition scannable (msg : json) : Prop :=
  is_object msg ∧ joinable (content_of msg).

(** ** The inputs on which the process ends without a traceback *)

(** The guards of [main] let the run through to the transcript. *)
Definition guards_pass (w : world) (hook_input : json) : bool :=
  negb (Py.truthy (default (JBool false) (field hook_input "stop_hook_active")))
  && path_exists w ".good-pm"
  && path_exists w ".good-pm/session".

(** The transcript is one the two loops of [main] get through: it can
    be iterated, every message is scannable and, when the messages show
    tool use or a PM keyword, the content of the last assistant message
    is well-formed. *)
Definition transcript_fit (transcript : json) : Prop :=
  ∃ msgs,
    PyObj.iter transcript = Ok msgs
    ∧ Forall scannable msgs
    ∧ (has_tool_use msgs ∨ pm_activity msgs →
       ∀ m, last_assistant_is msgs m → wf_content (content_of m)).

Section InputFit.

Variable json_loads : string → parsed.




End InputFit.

(** * Scenarios: concrete environments and inputs *)

(** A project directory with [.good-pm/session] and the given files;
    every other path, and every file descriptor, fails to open with an
    [OSError]. *)
Definition project_world (files : list (string * file_view)) : world :=
  {| path_exists := fun p => bool_decide (p ∈ [".good-pm"; ".good-pm/session"]);
     open_text :=
       fun p => Ok (snd <$> List.find (fun f => bool_decide (f.1 = p)) files);
     open_fd := fun _ => Ok None |}.

(** The hook input that names the transcript file [t.jsonl]. *)
Definition stdin_with_path : stdin_view :=
  StdinText
    (MiniJson.quoted "{'transcript_path': 't.jsonl', 'stop_hook_active': false}").

Definition transcript_world (lines : list string) : world :=
  project_world [("t.jsonl", (lines, Eof))].

(** A session in which the assistant used a tool and did not mention
    the session context. *)
Definition working_session : list string :=
  [ MiniJson.quoted "{'type': 'user', 'message': {'content': 'Please update the Spec'}}";
    "   ";
    "not json";
    MiniJson.quoted "{'type': 'summary', 'summary': 'earlier work'}";
    MiniJson.quoted "{'type': 'assistant', 'message': {'content': [{'type': 'text', 'text': 'Done.'}, {'type': 'tool_use', 'name': 'Edit'}]}}" ].

Definition working_session_input : list (string * json) :=
  [("transcript_path", JString "t.jsonl"); ("stop_hook_active", JBool false)].

Definition working_session_entries : list json :=
  [ entry_of (JString "user") (JString "Please update the Spec");
    entry_of (JString "assistant")
      (JArray [JObject [("type", JString "text"); ("text", JString "Done.")];
               JObject [("type", JString "tool_use"); ("name", JString "Edit")]]) ].


(** An assistant message whose content is a number, after a message
    that mentions a PM keyword. *)
Definition number_content_session : list string :=
  [ MiniJson.quoted "{'type': 'user', 'message': {'content': 'open an issue'}}";
    MiniJson.quoted "{'type': 'assistant', 'message': {'content': 5}}" ].

(** An entry whose message is a string, and a line that is a number. *)
Definition string_message_session : list string :=
  [ MiniJson.quoted "{'type': 'user', 'message': 'hi'}" ].

Definition number_line_session : list string := [ "5" ].

(** A path with a NUL character in it, and the hook input naming it. *)
Definition nul_path : string := String "a" (String "000" (String "b" "")).


(** A transcript file whose bytes stop decoding after the first line. *)
Definition undecodable_world : world :=
  project_world
    [("t.jsonl",
      ([MiniJson.quoted "{'type': 'user', 'message': {'content': 'hello'}}"],
       ReadDecodeError))].

(** ** More scenarios *)

(** The hook input after a first block: [stop_hook_active] is set. *)
Definition stdin_after_block : stdin_view :=
  StdinText
    (MiniJson.quoted "{'transcript_path': 't.jsonl', 'stop_hook_active': true}").

(** The same input as [stdin_with_path] with its fields in another
    order, two more fields, and a [transcript] that is not a list of
    messages. *)
Definition stdin_with_more_fields : stdin_view :=
  StdinText
    (MiniJson.quoted "{'stop_hook_active': false, 'transcript': [5], 'cwd': '/x', 'session_id': 'abc', 'transcript_path': 't.jsonl'}").

Definition more_fields_input : list (string * json) :=
  [("stop_hook_active", JBool false); ("transcript", JArray [JInt 5]);
   ("cwd", JString "/x"); ("session_id", JString "abc");
   ("transcript_path", JString "t.jsonl")].

(** A working session split over two files, and the whole of it. *)
Definition split_world : world :=
  project_world
    [("a.jsonl", (take 2 working_session, Eof));
     ("b.jsonl", (drop 2 working_session, Eof));
     ("t.jsonl", (take 2 working_session ++ drop 2 working_session, Eof))].

(** The entries of [number_content_session]. *)
Definition number_content_entries : list json :=
  [ entry_of (JString "user") (JString "open an issue");
    entry_of (JString "assistant") (JInt 5) ].

(** The hook run with its standard output as transcript: descriptor 1
    opens, cannot be read, and is closed. *)
Definition descriptor_world : world :=
  {| path_exists := fun _ => true;
     open_text := fun _ => Ok None;
     open_fd := fun z => if z =? 1 then Ok (Some ([], ReadOSError)) else Ok None |}.

Definition stdin_with_descriptor : stdin_view :=
  StdinText
    (MiniJson.quoted "{'transcript_path': true, 'stop_hook_active': true}").

(** * Properties of the hook *)

(** ** The JSON reader on sample texts *)

Example loads_entry :
  MiniJson.loads (MiniJson.quoted
    "{'type': 'user', 'message': {'content': [{'type': 'text', 'text': 'hi'}, 7, true, null]}}")
  = Parsed (JObject [("type", JString "user");
                   ("message", JObject [("content",
                      JArray [JObject [("type", JString "text");
                                       ("text", JString "hi")];
                              JInt 7; JBool true; JNull])])]).
Proof. vm_compute. reflexivity. Qed.

Example loads_rejects :
  MiniJson.loads "not json" = JSONDecodeError
  ∧ MiniJson.loads "" = JSONDecodeError
  ∧ MiniJson.loads "[1,]" = JSONDecodeError
  ∧ MiniJson.loads "01" = JSONDecodeError
  ∧ MiniJson.loads " -12 " = Parsed (JInt (-12)).
Proof. vm_compute. repeat split; reflexivity. Qed.

Lemma string_app_cons (c : ascii) (a b : string) :
  String c a +:+ b = String c (a +:+ b).
Proof. reflexivity. Qed.

Lemma string_app_nil_l (s : string) : "" +:+ s = s.
Proof. reflexivity. Qed.

Lemma string_app_nil_r (s : string) : s +:+ "" = s.
Proof. induction s; rewrite ?string_app_cons; [done | congruence]. Qed.

Lemma string_app_assoc (a b c : string) : (a +:+ b) +:+ c = a +:+ b +:+ c.
Proof. induction a; rewrite ?string_app_cons; [done | congruence]. Qed.

Lemma startswith_spec (p s : string) :
  PyStr.startswith p s = true ↔ ∃ post, s = p +:+ post.
Proof.
  revert s. induction p as [|a p IH]; intros s; simpl.
  - split; [intros _; by exists s | done].
  - destruct s as [|b s].
    + split; [done | intros [post H]; discriminate].
    + rewrite andb_true_iff, bool_decide_eq_true, IH. split.
      * intros [-> [post ->]]. by exists post.
      * intros [post H]. rewrite string_app_cons in H.
        injection H as -> ->. eauto.
Qed.

Lemma contains_spec (k s : string) :
  PyStr.contains k s = true ↔ occurs_in k s.
Proof.
  unfold occurs_in. induction s as [|c s IH]; simpl.
  - rewrite orb_false_r, startswith_spec. split.
    + intros [post H]. by exists "", post.
    + intros (pre & post & H). destruct pre; [by exists post|discriminate].
  - rewrite orb_true_iff, startswith_spec, IH. split.
    + intros [[post H] | (pre & post & ->)].
      * by exists "", post.
      * by exists (String c pre), post.
    + intros (pre & post & H). destruct pre as [|c' pre].
      * left. by exists post.
      * right. rewrite string_app_cons in H. injection H as -> ->. eauto.
Qed.

Lemma any_in_spec (keys : list string) (s : string) :
  PyStr.any_in keys s = true ↔ ∃ k, k ∈ keys ∧ occurs_in k s.
Proof.
  unfold PyStr.any_in. rewrite existsb_exists.
  setoid_rewrite contains_spec. by setoid_rewrite <- list_elem_of_In.
Qed.

Lemma lower_app (a b : string) :
  PyStr.lower (a +:+ b) = PyStr.lower a +:+ PyStr.lower b.
Proof.
  induction a; rewrite ?string_app_cons; simpl;
    rewrite ?string_app_cons; [done | congruence].
Qed.

Lemma lower_split (s a b : string) :
  PyStr.lower s = a +:+ b →
  ∃ s1 s2, s = s1 +:+ s2 ∧ PyStr.lower s1 = a ∧ PyStr.lower s2 = b.
Proof.
  revert s. induction a as [|c a IH]; intros s H.
  - by exists "", s.
  - destruct s as [|c' s]; [discriminate|]. simpl in H.
    rewrite string_app_cons in H.
    injection H as Hc H. destruct (IH _ H) as (s1 & s2 & -> & H1 & H2).
    exists (String c' s1), s2. simpl. by rewrite Hc, H1.
Qed.

(** Looking for a lower-case key in the lower-cased text, as the hook
    does, is the search that ignores case. *)
Lemma occurs_lower_nocase (k s : string) :
  PyStr.lower k = k →
  occurs_in k (PyStr.lower s) ↔ occurs_in_nocase k s.
Proof.
  intros Hk. split.
  - intros (pre & post & H).
    apply lower_split in H as (s1 & s23 & -> & _ & H).
    apply lower_split in H as (s2 & s3 & -> & H & _).
    exists s1, s2, s3. by rewrite Hk.
  - intros (pre & mid & post & -> & H).
    exists (PyStr.lower pre), (PyStr.lower post).
    by rewrite !lower_app, H, Hk.
Qed.

(** ** The loops of [main] on well-formed messages *)

#[local] Arguments PyStr.any_in : simpl never.

Lemma bind_ok {A B : Type} (m : result A) (a : A) (k : A → result B) :
  m = Ok a → bind m k = k a.
Proof. by intros ->. Qed.

Lemma wf_block_object (block : json) : wf_block block → is_object block.
Proof. by destruct block. Qed.

Lemma get_type_object (block : json) (ty : string) :
  is_object block →
  (let* t := Py.get block "type" JNull in Ok (PyObj.eq_str t ty))
  = Ok (is_type ty block).
Proof.
  destruct block as [| | | | | |kv]; try done. intros _. simpl.
  unfold is_type. simpl. by destruct (Py.dict_lookup kv "type") as [[]|].
Qed.

Lemma any_tool_use_ok (blocks : list json) :
  Forall is_object blocks →
  any_tool_use blocks = Ok (existsb (is_type "tool_use") blocks).
Proof.
  induction 1 as [|block blocks Hb _ IH]; [done|]. simpl.
  destruct block as [| | | | | |kv]; try done. simpl.
  unfold is_type at 1. simpl.
  destruct (Py.dict_lookup kv "type") as [[| | | |t| |]|]; simpl; try done.
  by destruct (bool_decide (t = "tool_use")).
Qed.

Lemma all_str_strings (l : list string) :
  PyObj.all_str (JString <$> l) = Ok l.
Proof. induction l as [|s l IH]; [done|]. csimpl. by rewrite IH. Qed.

Lemma text_items_ok (blocks : list json) :
  Forall wf_block blocks →
  text_items blocks = Ok (JString <$> omap text_of_block blocks).
Proof.
  induction 1 as [|block blocks Hb _ IH]; [done|]. simpl.
  destruct block as [| | | | | |kv]; try done. simpl in *.
  unfold text_of_block, is_type in *. simpl in *.
  destruct (Py.dict_lookup kv "type") as [[| | | |t| |]|]; simpl; try done.
  destruct (bool_decide (t = "text")); simpl; [|done].
  rewrite IH. simpl.
  destruct (Py.dict_lookup kv "text") as [v|] eqn:Hv; simpl; [|done].
  destruct (Hb eq_refl v eq_refl) as [s ->]. done.
Qed.

Lemma joined_text_ok (blocks : list json) :
  Forall wf_block blocks →
  joined_text blocks = Ok (message_text (JArray blocks)).
Proof.
  intros H. unfold joined_text. rewrite (text_items_ok _ H). simpl.
  unfold PyObj.join. by rewrite all_str_strings.
Qed.

Lemma scan_message_ok (a b : bool) (msg : json) :
  wf_entry msg →
  scan_message (a, b) msg
  = Ok (a || tool_use_in msg, b || keyword_in pm_keywords msg).
Proof.
  intros [Hobj Hc]. destruct msg as [| | | | | |kv]; try done.
  unfold scan_message, tool_use_in, keyword_in. simpl Py.get.
  change (default (JString "") (Py.dict_lookup kv "content"))
    with (content_of (JObject kv)).
  destruct (content_of (JObject kv)) as [| | | |s|blocks|]; simpl;
    rewrite ?orb_false_r; try done.
  simpl in Hc.
  rewrite any_tool_use_ok by (eapply Forall_impl; eauto using wf_block_object).
  by rewrite joined_text_ok.
Qed.

Lemma scan_messages_ok (a b : bool) (t : list json) :
  Forall wf_entry t →
  scan_messages (a, b) t
  = Ok (a || existsb tool_use_in t, b || existsb (keyword_in pm_keywords) t).
Proof.
  intros H. revert a b.
  induction H as [|msg t Hm _ IH]; intros a b; cbn [scan_messages existsb].
  - by rewrite !orb_false_r.
  - rewrite scan_message_ok by done. cbn [bind]. rewrite IH.
    by rewrite !orb_assoc.
Qed.

Lemma last_assistant_ok (l : list json) :
  Forall wf_entry l →
  last_assistant l
  = Ok (match List.find is_assistant l with
        | Some m => kept_content (content_of m)
        | None => JNull
        end).
Proof.
  induction 1 as [|msg l [Hobj Hc] _ IH]; [done|].
  destruct msg as [| | | | | |kv]; try done. simpl.
  unfold is_assistant at 1. simpl.
  destruct (Py.dict_lookup kv "role") as [[| | | |r| |]|]; simpl; try done.
  destruct (bool_decide (r = "assistant")); simpl; [|done].
  change (default (JString "") (Py.dict_lookup kv "content"))
    with (content_of (JObject kv)).
  destruct (content_of (JObject kv)) as [| | | |s|blocks|]; simpl; try done.
  simpl in Hc. by rewrite joined_text_ok.
Qed.

Lemma updated_check_ok (content : json) :
  wf_content content →
  (if Py.truthy (kept_content content) then
     let* lower_msg := PyObj.lower (kept_content content) in
     Ok (PyStr.any_in update_indicators lower_msg)
   else Ok false)
  = Ok (PyStr.any_in update_indicators (PyStr.lower (message_text content))).
Proof.
  intros Hc.
  assert (Hs : ∀ s, (if Py.truthy (JString s) then
                       let* lower_msg := PyObj.lower (JString s) in
                       Ok (PyStr.any_in update_indicators lower_msg)
                     else Ok false)
                    = Ok (PyStr.any_in update_indicators (PyStr.lower s))).
  { intros [|c s]; done. }
  destruct content; simpl in Hc |- *; try (by rewrite Hc); try done.
  - apply Hs.
  - apply (Hs (PyStr.join " " (omap text_of_block items))).
Qed.

(** ** The computed conditions are those of the specification *)

Lemma tool_use_spec (t : list json) :
  existsb tool_use_in t = true ↔ has_tool_use t.
Proof.
  rewrite existsb_exists. unfold has_tool_use, tool_use_in. split.
  - intros (msg & Hin & H). apply list_elem_of_In in Hin.
    destruct (content_of msg) as [| | | | |blocks|] eqn:Hc; try done.
    apply existsb_exists in H as (block & Hb & Hty).
    apply list_elem_of_In in Hb. by exists msg, blocks, block.
  - intros (msg & blocks & block & Hin & Hc & Hb & Hty).
    exists msg. rewrite <- list_elem_of_In, Hc. split; [done|].
    apply existsb_exists. exists block. by rewrite <- list_elem_of_In.
Qed.

Lemma keyword_in_spec (phrases : list string) (msg : json) :
  Forall (fun k => PyStr.lower k = k) phrases →
  keyword_in phrases msg = true
  ↔ mentions phrases (message_text (content_of msg)).
Proof.
  intros Hlow. unfold keyword_in, mentions. rewrite any_in_spec.
  rewrite Forall_forall in Hlow.
  split; intros (k & Hk & H); exists k; (split; [done|]);
    by apply (occurs_lower_nocase k _ (Hlow k Hk)).
Qed.

Lemma pm_keywords_lower : Forall (fun k => PyStr.lower k = k) pm_keywords.
Proof. repeat constructor. Qed.

Lemma update_indicators_lower :
  Forall (fun k => PyStr.lower k = k) update_indicators.
Proof. repeat constructor. Qed.

Lemma pm_activity_spec (t : list json) :
  existsb (keyword_in pm_keywords) t = true ↔ pm_activity t.
Proof.
  rewrite existsb_exists. unfold pm_activity.
  split; intros (msg & Hin & H); exists msg.
  - apply list_elem_of_In in Hin. split; [done|].
    by apply keyword_in_spec in H; [|apply pm_keywords_lower].
  - rewrite <- list_elem_of_In. split; [done|].
    by apply keyword_in_spec; [apply pm_keywords_lower|].
Qed.

Lemma find_reverse_some {A : Type} (f : A → bool) (t : list A) (m : A) :
  List.find f (reverse t) = Some m
  ↔ ∃ before after, t = before ++ m :: after ∧ f m = true
                    ∧ Forall (fun x => f x = false) after.
Proof.
  induction t as [|x t IH] using rev_ind.
  - split; [done|]. intros (b & a & H & _). by destruct b.
  - rewrite reverse_snoc. simpl. destruct (f x) eqn:Hx.
    + split.
      * intros [= <-]. by exists t, [].
      * intros (b & a & H & Hm & Ha).
        destruct a as [|y a _] using rev_ind.
        -- apply app_inj_tail in H as [_ ->]. done.
        -- rewrite app_comm_cons, app_assoc in H.
           apply app_inj_tail in H as [_ ->].
           apply Forall_app in Ha as [_ Ha].
           rewrite Forall_singleton in Ha. congruence.
    + rewrite IH. split.
      * intros (b & a & -> & Hm & Ha). exists b, (a ++ [x]).
        split; [by rewrite <- app_assoc|]. split; [done|].
        apply Forall_app. split; [done|]. by rewrite Forall_singleton.
      * intros (b & a & H & Hm & Ha).
        destruct a as [|y a _] using rev_ind.
        -- apply app_inj_tail in H as [_ ->]. congruence.
        -- rewrite app_comm_cons, app_assoc in H.
           apply app_inj_tail in H as [-> ->].
           apply Forall_app in Ha as [Ha _]. by exists b, a.
Qed.

Lemma updated_spec (t : list json) :
  updated_b t = true ↔ session_updated t.
Proof.
  unfold updated_b, session_updated, last_assistant_is. split.
  - destruct (List.find is_assistant (reverse t)) as [m|] eqn:Hf; [|done].
    intros H. exists m. split; [by apply find_reverse_some|].
    by apply keyword_in_spec in H; [|apply update_indicators_lower].
  - intros (m & Hlast & H). apply find_reverse_some in Hlast as ->.
    by apply keyword_in_spec; [apply update_indicators_lower|].
Qed.

Lemma should_block_spec (w : world) (hook_input : json) (t : list json) :
  should_block_b w hook_input t = true ↔ should_block w hook_input t.
Proof.
  unfold should_block_b, should_block.
  rewrite !andb_true_iff, orb_true_iff, !negb_true_iff.
  rewrite tool_use_spec, pm_activity_spec, <- updated_spec.
  rewrite not_true_iff_false. tauto.
Qed.

(** ** [main] on a well-formed transcript *)

Section HookProps.

Variable json_loads : string → parsed.

Lemma find_wf_entry (l : list json) (m : json) :
  Forall wf_entry l → List.find is_assistant l = Some m → wf_entry m.
Proof.
  intros Hl Hf. apply find_some in Hf as [Hin _].
  apply list_elem_of_In in Hin. by eapply Forall_forall in Hl.
Qed.

Lemma main_on_transcript (w : world) (stdin : stdin_view)
    (kv : list (string * json)) (t : list json) :
  json_load json_loads stdin = Parsed (JObject kv) →
  the_transcript json_loads w (JObject kv) = Ok (JArray t) →
  Forall wf_entry t →
  main json_loads w stdin
  = Ok ([if should_block_b w (JObject kv) t then block_obj else approve_obj],
        0).
Proof.
  intros Hin Ht Hwf. unfold main. rewrite Hin.
  unfold the_transcript in Ht. cbn [Py.get bind] in Ht |- *.
  rewrite Ht. cbn [bind]. unfold should_block_b. cbn [field].
  destruct (Py.truthy (default (JBool false)
                         (Py.dict_lookup kv "stop_hook_active"))); [done|].
  destruct (path_exists w ".good-pm"); [|done].
  destruct (path_exists w ".good-pm/session"); [|done].
  cbn [negb andb PyObj.iter PyObj.reversed bind].
  rewrite scan_messages_ok by done. cbn [bind orb].
  destruct (existsb tool_use_in t || existsb (keyword_in pm_keywords) t)
    eqn:Hact.
  - replace (negb (existsb tool_use_in t)
             && negb (existsb (keyword_in pm_keywords) t)) with false
      by (symmetry; rewrite <- negb_orb, Hact; done).
    assert (Hrev : Forall wf_entry (reverse t)) by by apply Forall_reverse.
    rewrite last_assistant_ok by done. cbn [bind].
    unfold updated_b, keyword_in.
    destruct (List.find is_assistant (reverse t)) as [m|] eqn:Hf.
    + destruct (find_wf_entry _ _ Hrev Hf) as [_ Hc].
      rewrite updated_check_ok by done. cbn [bind].
      by destruct (PyStr.any_in update_indicators _).
    + done.
  - by rewrite <- negb_orb, Hact.
Qed.

(** C1.  When the standard input parses to a JSON object and the
    transcript [main] works on is a list of well-formed entries, [main]
    prints the object with decision [block] exactly when all the
    conditions of [should_block] hold: [stop_hook_active] is falsy,
    [.good-pm] and [.good-pm/session] exist, the transcript has a
    [tool_use] block or a message that mentions a PM keyword, and the
    last assistant message, if any, mentions no update indicator.  In
    every other case it prints the object with decision [approve].  It
    returns 0 in both. *)
Theorem main_blocks_iff (w : world) (stdin : stdin_view)
    (kv : list (string * json)) (t : list json) :
  json_load json_loads stdin = Parsed (JObject kv) →
  the_transcript json_loads w (JObject kv) = Ok (JArray t) →
  Forall wf_entry t →
  (main json_loads w stdin = Ok ([block_obj], 0)
   ↔ should_block w (JObject kv) t)
  ∧ (¬ should_block w (JObject kv) t →
     main json_loads w stdin = Ok ([approve_obj], 0))
  ∧ field block_obj "decision" = Some (JString "block")
  ∧ field approve_obj "decision" = Some (JString "approve").
Proof.
  intros Hin Ht Hwf. rewrite (main_on_transcript w stdin kv t Hin Ht Hwf).
  rewrite <- should_block_spec.
  destruct (should_block_b w (JObject kv) t); repeat split; try done.
Qed.

End HookProps.

(** Well-formedness of concrete entries is decided by looking at them. *)
Ltac solve_wf :=
  repeat first
    [ apply Forall_nil_2
    | apply Forall_cons_2
    | split
    | exact I
    | reflexivity
    | (intros _ ? [= <-]; eexists; reflexivity)
    | (intros [=])
    | (intros _ ? [=]) ].

Lemma working_session_wf : Forall wf_entry working_session_entries.
Proof. unfold working_session_entries. solve_wf. Qed.

Lemma main_blocks_iff_witness :
  (main MiniJson.loads (transcript_world working_session) stdin_with_path
   = Ok ([block_obj], 0)
   ↔ should_block (transcript_world working_session)
       (JObject working_session_input) working_session_entries)
  ∧ (¬ should_block (transcript_world working_session)
         (JObject working_session_input) working_session_entries →
     main MiniJson.loads (transcript_world working_session) stdin_with_path
     = Ok ([approve_obj], 0))
  ∧ field block_obj "decision" = Some (JString "block")
  ∧ field approve_obj "decision" = Some (JString "approve").
Proof.
  apply (main_blocks_iff MiniJson.loads (transcript_world working_session)
           stdin_with_path working_session_input working_session_entries).
  - vm_compute. reflexivity.
  - vm_compute. reflexivity.
  - exact working_session_wf.
Defined.

(** The working session is blocked; the same session is approved once
    the assistant says that no updates are needed. *)
Example working_session_blocked :
  run MiniJson.loads (transcript_world working_session) stdin_with_path
  = Exited [block_obj] 0.
Proof. vm_compute. reflexivity. Qed.

Example closed_session_approved :
  run MiniJson.loads
    (transcript_world
       (working_session ++
        [MiniJson.quoted "{'type': 'assistant', 'message': {'content': 'No Updates Needed.'}}"]))
    stdin_with_path
  = Exited [approve_obj] 0.
Proof. vm_compute. reflexivity. Qed.


(** * Properties of [load_transcript] *)

Section TranscriptExact.

Variable json_loads : string → parsed.

Lemma load_line_exact (transcript : list json) (line : string) :
  load_line json_loads transcript line
  = match line_fault json_loads line with
    | Some e => Raise e
    | None => Ok (transcript ++ option_list (entry_for json_loads line))
    end.
Proof.
  unfold load_line, line_fault, entry_for.
  destruct (PyStr.strip line) as [|c l]; cbn [Py.truthy].
  { by rewrite app_nil_r. }
  destruct (json_loads (String c l)) as [entry| |e];
    [|by rewrite app_nil_r|done].
  destruct entry as [| | | |s|items|kv];
    cbn [PyObj.contains bind PyObj.getitem]; try done.
  - destruct (PyStr.contains "type" s); [done | by rewrite app_nil_r].
  - destruct (existsb _ items); [done | by rewrite app_nil_r].
  - destruct (Py.dict_lookup kv "type") as [ty|] eqn:Hty;
      cbn [default from_option id].
    2:{ rewrite bool_decide_eq_false_2 by (by intros [? ?]).
        by rewrite app_nil_r. }
    rewrite bool_decide_eq_true_2 by eauto.
    destruct ty as [| | | |t| |]; cbn [PyObj.eq_str orb];
      try by rewrite app_nil_r.
    rewrite <- bool_decide_or.
    destruct (bool_decide (t = "user" ∨ t = "assistant"));
      [|by rewrite app_nil_r].
    unfold message_content. cbn [Py.get bind field].
    destruct (Py.dict_lookup kv "message") as [m|];
      cbn [default from_option id bind]; [|done].
    by destruct m.
Qed.

Lemma load_lines_exact (transcript : list json) (lines : list string) :
  load_lines json_loads transcript lines
  = match first_fault json_loads lines with
    | Some e => Raise e
    | None => Ok (transcript ++ omap (entry_for json_loads) lines)
    end.
Proof.
  revert transcript. induction lines as [|line lines IH]; intros transcript;
    cbn [load_lines first_fault omap list_omap].
  - by rewrite app_nil_r.
  - rewrite load_line_exact.
    destruct (line_fault json_loads line); cbn [bind]; [done|].
    rewrite IH. destruct (first_fault json_loads lines); [done|].
    rewrite <- app_assoc. by destruct (entry_for json_loads line).
Qed.

Lemma first_fault_none (lines : list string) :
  first_fault json_loads lines = None
  ↔ Forall (fun l => line_fault json_loads l = None) lines.
Proof.
  induction lines as [|line lines IH]; cbn [first_fault].
  - split; [constructor | done].
  - rewrite Forall_cons, <- IH.
    destruct (line_fault json_loads line); [|tauto].
    split; [done | by intros [? _]].
Qed.

Lemma load_line_skipped (transcript : list json) (line : string) :
  skipped json_loads line = true →
  load_line json_loads transcript line = Ok transcript.
Proof.
  unfold skipped, load_line.
  destruct (PyStr.strip line) as [|c l]; cbn [Py.truthy]; [done|].
  by destruct (json_loads (String c l)).
Qed.

Lemma load_lines_filter (transcript : list json) (lines : list string) :
  load_lines json_loads transcript
    (List.filter (fun l => negb (skipped json_loads l)) lines)
  = load_lines json_loads transcript lines.
Proof.
  revert transcript. induction lines as [|line lines IH]; intros transcript;
    [done|].
  cbn [List.filter load_lines].
  destruct (skipped json_loads line) eqn:Hs; cbn [negb load_lines].
  - rewrite load_line_skipped by done. cbn [bind]. apply IH.
  - destruct (load_line json_loads transcript line); cbn [bind]; [apply IH|done].
Qed.

Lemma entry_for_is_entry (line : string) (e : json) :
  entry_for json_loads line = Some e → is_entry e.
Proof.
  unfold entry_for. destruct (PyStr.strip line) as [|c l]; [done|].
  destruct (json_loads (String c l)) as [[| | | | | |kv]| |]; try done.
  destruct (Py.dict_lookup kv "type") as [[| | | |t| |]|]; try done.
  case_bool_decide as Ht; [|done]. intros [= <-].
  eexists _, _. split; [reflexivity | done].
Qed.

Lemma entries_are_entries (lines : list string) :
  Forall is_entry (omap (entry_for json_loads) lines).
Proof.
  induction lines as [|line lines IH]; [constructor|]. cbn [omap list_omap].
  destruct (entry_for json_loads line) as [e|] eqn:He; [|done].
  constructor; [by eapply entry_for_is_entry | done].
Qed.

(** C3, amended.  For a path on which [open] raises nothing but
    [OSError]: when the file cannot be opened [load_transcript] returns
    the empty list; when it opens and reads as text and none of its
    lines is faulty ([line_fault]: the line makes [json.loads] raise
    something other than [JSONDecodeError], or parses to a number, a
    boolean or [null], to a string that contains [type], to a list that
    contains the string [type], or to an object of type user or
    assistant whose [message] is present and not an object),
    [load_transcript] returns without raising, in file order, exactly
    the entries [{role: t, content: c}] of the non-blank lines that
    parse to an object of type [t], user or assistant, with [c] the
    content of its message (the empty string when [message] or
    [content] is absent); the other lines are skipped. *)
Theorem load_transcript_entries (w : world) (p : string) :
  (py_open w (JString p) = Ok None →
   load_transcript json_loads w (JString p) = Ok (JArray []))
  ∧ (∀ lines stop,
       py_open w (JString p) = Ok (Some (lines, stop)) →
       stop ≠ ReadDecodeError →
       Forall (fun l => line_fault json_loads l = None) lines →
       load_transcript json_loads w (JString p)
       = Ok (JArray (omap (entry_for json_loads) lines))).
Proof.
  unfold load_transcript. split.
  - by intros ->.
  - intros lines stop -> Hstop Hlines. cbn [bind].
    rewrite load_lines_exact.
    apply first_fault_none in Hlines as ->. cbn [bind app].
    by destruct stop.
Qed.

(** X5.  On a file that opens and reads as text, [load_transcript]
    raises the exception of the first faulty line, and when no line is
    faulty it returns the entries of the lines, in order. *)
Theorem load_transcript_exact (w : world) (p : string)
    (lines : list string) (stop : file_end) :
  py_open w (JString p) = Ok (Some (lines, stop)) →
  stop ≠ ReadDecodeError →
  load_transcript json_loads w (JString p)
  = match first_fault json_loads lines with
    | Some e => Raise e
    | None => Ok (JArray (omap (entry_for json_loads) lines))
    end.
Proof.
  intros Hopen Hstop. unfold load_transcript.
  rewrite Hopen. cbn [bind]. rewrite load_lines_exact.
  destruct (first_fault json_loads lines); cbn [bind app]; [done|].
  by destruct stop.
Qed.

(** X6.  Blank lines and lines that do not parse are ignored: removing
    them from the file changes nothing of what [load_transcript] does,
    be it a result or an exception. *)
Theorem load_transcript_ignores_skipped (w w' : world) (p : string)
    (lines : list string) (stop : file_end) :
  open_text w p = Ok (Some (lines, stop)) →
  open_text w' p
  = Ok (Some (List.filter (fun l => negb (skipped json_loads l)) lines,
              stop)) →
  load_transcript json_loads w' (JString p)
  = load_transcript json_loads w (JString p).
Proof.
  intros Hw Hw'. unfold load_transcript, py_open.
  destruct (PyStr.has_nul p); [done|]. rewrite Hw, Hw'. cbn [bind].
  by rewrite load_lines_filter.
Qed.

(** X7.  The transcript of two files put end to end is the transcript of
    the first followed by that of the second. *)
Theorem load_transcript_concat (w : world) (p1 p2 p12 : string)
    (l1 l2 : list string) (t1 t2 : list json) :
  PyStr.has_nul p12 = false →
  open_text w p1 = Ok (Some (l1, Eof)) →
  open_text w p2 = Ok (Some (l2, Eof)) →
  open_text w p12 = Ok (Some (l1 ++ l2, Eof)) →
  load_transcript json_loads w (JString p1) = Ok (JArray t1) →
  load_transcript json_loads w (JString p2) = Ok (JArray t2) →
  load_transcript json_loads w (JString p12) = Ok (JArray (t1 ++ t2)).
Proof.
  unfold load_transcript, py_open. intros Hnul H1 H2 H12.
  rewrite Hnul, H1, H2, H12.
  destruct (PyStr.has_nul p1); [done|]. destruct (PyStr.has_nul p2); [done|].
  cbn [bind]. rewrite !load_lines_exact.
  assert (Hff : first_fault json_loads (l1 ++ l2)
                = match first_fault json_loads l1 with
                  | Some e => Some e
                  | None => first_fault json_loads l2
                  end).
  { clear. induction l1 as [|l l1 IH]; [done|]. cbn [app first_fault].
    by destruct (line_fault json_loads l). }
  rewrite Hff.
  destruct (first_fault json_loads l1); [done|].
  destruct (first_fault json_loads l2); [done|].
  cbn [bind app]. intros [= <-] [= <-]. by rewrite omap_app.
Qed.

(** X8.  Whatever the path and the file, a transcript that
    [load_transcript] returns is a list of entries that hold exactly a
    role, user or assistant, and a content. *)
Theorem load_transcript_roles (w : world) (path transcript : json) :
  load_transcript json_loads w path = Ok transcript →
  ∃ t, transcript = JArray t ∧ Forall is_entry t.
Proof.
  unfold load_transcript. destruct (py_open w path) as [[[lines stop]|]|];
    cbn [bind]; [| |done].
  - rewrite load_lines_exact.
    destruct (first_fault json_loads lines); cbn [bind app]; [done|].
    destruct stop; [| |done]; intros [= <-]; eexists;
      (split; [reflexivity | apply entries_are_entries]).
  - intros [= <-]. exists []. split; [done | constructor].
Qed.

End TranscriptExact.

(** ** [load_transcript] on the scenarios *)

Lemma load_transcript_entries_witness :
  load_transcript MiniJson.loads (transcript_world working_session)
    (JString "t.jsonl")
  = Ok (JArray (omap (entry_for MiniJson.loads) working_session)).
Proof.
  apply (proj2 (load_transcript_entries MiniJson.loads
                  (transcript_world working_session) "t.jsonl")
           working_session Eof eq_refl).
  - discriminate.
  - apply first_fault_none. vm_compute. reflexivity.
Defined.

Example working_session_loaded :
  omap (entry_for MiniJson.loads) working_session = working_session_entries.
Proof. vm_compute. reflexivity. Qed.

(** C3 as stated fails: an entry whose [message] is not an object, and a
    line that parses to a number, make [load_transcript] raise
    ([AttributeError] from [.get] on a string, [TypeError] from [in] on
    a number); so do a path with a NUL character and a file whose bytes
    do not decode ([ValueError], which [(IOError, OSError)] does not
    catch). *)
Lemma load_transcript_raises :
  load_transcript MiniJson.loads (transcript_world string_message_session)
    (JString "t.jsonl") = Raise AttributeError
  ∧ load_transcript MiniJson.loads (transcript_world number_line_session)
      (JString "t.jsonl") = Raise TypeError
  ∧ load_transcript MiniJson.loads (transcript_world []) (JString nul_path)
    = Raise ValueError
  ∧ load_transcript MiniJson.loads undecodable_world (JString "t.jsonl")
    = Raise ValueError.
Proof. vm_compute. repeat split; reflexivity. Qed.

Lemma load_transcript_exact_witness :
  load_transcript MiniJson.loads
    (transcript_world (working_session ++ string_message_session))
    (JString "t.jsonl")
  = match first_fault MiniJson.loads
            (working_session ++ string_message_session) with
    | Some e => Raise e
    | None =>
        Ok (JArray (omap (entry_for MiniJson.loads)
                      (working_session ++ string_message_session)))
    end.
Proof.
  apply (load_transcript_exact MiniJson.loads
           (transcript_world (working_session ++ string_message_session))
           "t.jsonl" (working_session ++ string_message_session) Eof).
  - reflexivity.
  - discriminate.
Defined.

Example first_fault_of_session :
  first_fault MiniJson.loads (working_session ++ string_message_session)
  = Some AttributeError
  ∧ first_fault MiniJson.loads working_session = None.
Proof. vm_compute. split; reflexivity. Qed.

Lemma load_transcript_ignores_skipped_witness :
  load_transcript MiniJson.loads
    (transcript_world
       (List.filter (fun l => negb (skipped MiniJson.loads l))
          working_session))
    (JString "t.jsonl")
  = load_transcript MiniJson.loads (transcript_world working_session)
      (JString "t.jsonl").
Proof.
  apply (load_transcript_ignores_skipped MiniJson.loads
           (transcript_world working_session)
           (transcript_world
              (List.filter (fun l => negb (skipped MiniJson.loads l))
                 working_session))
           "t.jsonl" working_session Eof).
  - reflexivity.
  - reflexivity.
Defined.

Lemma load_transcript_concat_witness :
  load_transcript MiniJson.loads split_world (JString "t.jsonl")
  = Ok (JArray (take 1 working_session_entries
                ++ drop 1 working_session_entries)).
Proof.
  apply (load_transcript_concat MiniJson.loads split_world
           "a.jsonl" "b.jsonl" "t.jsonl"
           (take 2 working_session) (drop 2 working_session)
           (take 1 working_session_entries) (drop 1 working_session_entries)).
  - reflexivity.
  - reflexivity.
  - reflexivity.
  - reflexivity.
  - vm_compute. reflexivity.
  - vm_compute. reflexivity.
Defined.

Lemma load_transcript_roles_witness :
  ∃ t, JArray working_session_entries = JArray t ∧ Forall is_entry t.
Proof.
  apply (load_transcript_roles MiniJson.loads
           (transcript_world working_session) (JString "t.jsonl")
           (JArray working_session_entries)).
  vm_compute. reflexivity.
Defined.

(** * Properties of [main] and of the whole run *)

(** ** What a run that completes has decided *)

#[local] Arguments PyStr.any_in : simpl never.

Lemma bind_Ok_inv {A B : Type} (m : result A) (k : A → result B) (b : B) :
  bind m k = Ok b → ∃ a, m = Ok a ∧ k a = Ok b.
Proof. destruct m as [a|e]; [by exists a | done]. Qed.

Lemma any_tool_use_returns (blocks : list json) (b : bool) :
  any_tool_use blocks = Ok b → b = existsb (is_type "tool_use") blocks.
Proof.
  induction blocks as [|block blocks IH]; [by intros [= <-]|].
  destruct block as [| | | | | |kv]; try done. cbn [any_tool_use Py.get bind].
  cbn [existsb]. unfold is_type at 1. cbn [field].
  destruct (Py.dict_lookup kv "type") as [[| | | |t| |]|];
    cbn [default from_option id PyObj.eq_str orb]; try apply IH.
  destruct (bool_decide (t = "tool_use")); [by intros [= <-] | apply IH].
Qed.

Lemma text_items_returns (blocks items : list json) (parts : list string) :
  text_items blocks = Ok items →
  PyObj.all_str items = Ok parts →
  parts = omap text_of_block blocks.
Proof.
  revert items parts.
  induction blocks as [|block blocks IH]; intros items parts.
  { intros [= <-] [= <-]. done. }
  destruct block as [| | | | | |kv]; try done. cbn [text_items Py.get bind].
  cbn [omap list_omap]. unfold text_of_block at 1, is_type. cbn [field].
  destruct (Py.dict_lookup kv "type") as [[| | | |t| |]|];
    cbn [default from_option id PyObj.eq_str]; try apply IH.
  destruct (bool_decide (t = "text")); [|apply IH].
  intros H. apply bind_Ok_inv in H as (ts & Hts & [= <-]).
  destruct (Py.dict_lookup kv "text") as [[| | | |s| |]|];
    cbn [default from_option id PyObj.all_str]; try done;
    intros H; apply bind_Ok_inv in H as (ss & Hss & [= <-]);
    by rewrite (IH ts ss Hts Hss).
Qed.

Lemma joined_text_returns (blocks : list json) (s : string) :
  joined_text blocks = Ok s → s = message_text (JArray blocks).
Proof.
  unfold joined_text, PyObj.join. intros H.
  apply bind_Ok_inv in H as (items & Hitems & H).
  apply bind_Ok_inv in H as (parts & Hparts & [= <-]).
  cbn [message_text]. by rewrite (text_items_returns _ _ _ Hitems Hparts).
Qed.

Lemma no_keyword_in_empty (phrases : list string) :
  Forall (fun k => k ≠ "") phrases → PyStr.any_in phrases "" = false.
Proof.
  unfold PyStr.any_in. induction 1 as [|k ks Hk _ IH]; [done|].
  cbn [existsb]. rewrite IH. by destruct k.
Qed.

Lemma pm_keywords_nonempty : Forall (fun k => k ≠ "") pm_keywords.
Proof. repeat constructor; discriminate. Qed.

Lemma update_indicators_nonempty : Forall (fun k => k ≠ "") update_indicators.
Proof. repeat constructor; discriminate. Qed.

Lemma scan_message_returns (a b : bool) (msg : json) (r : bool * bool) :
  scan_message (a, b) msg = Ok r →
  r = (a || tool_use_in msg, b || keyword_in pm_keywords msg).
Proof.
  destruct msg as [| | | | | |kv]; try done.
  unfold scan_message, tool_use_in, keyword_in. cbn [Py.get bind].
  change (default (JString "") (Py.dict_lookup kv "content"))
    with (content_of (JObject kv)).
  pose proof (no_keyword_in_empty _ pm_keywords_nonempty) as Hempty.
  destruct (content_of (JObject kv)) as [| | | |s|blocks|];
    cbn [bind message_text PyStr.lower];
    rewrite ?Hempty, ?orb_false_r; try by intros [= <-].
  intros H. apply bind_Ok_inv in H as (tu & Htu & H).
  apply bind_Ok_inv in Htu as (found & Hfound & [= <-]).
  apply bind_Ok_inv in H as (pm & Hpm & [= <-]).
  apply bind_Ok_inv in Hpm as (text & Htext & [= <-]).
  rewrite (any_tool_use_returns _ _ Hfound).
  by rewrite (joined_text_returns _ _ Htext).
Qed.

Lemma scan_messages_returns (a b : bool) (msgs : list json)
    (r : bool * bool) :
  scan_messages (a, b) msgs = Ok r →
  r = (a || existsb tool_use_in msgs,
       b || existsb (keyword_in pm_keywords) msgs).
Proof.
  revert a b. induction msgs as [|msg msgs IH]; intros a b;
    cbn [scan_messages existsb].
  - intros [= <-]. by rewrite !orb_false_r.
  - intros H. apply bind_Ok_inv in H as (f & Hf & H).
    apply scan_message_returns in Hf as ->. apply IH in H as ->.
    by rewrite !orb_assoc.
Qed.

Lemma last_assistant_returns (l : list json) (c : json) :
  last_assistant l = Ok c →
  c = match List.find is_assistant l with
      | Some m => kept_content (content_of m)
      | None => JNull
      end.
Proof.
  induction l as [|msg l IH]; [by intros [= <-]|].
  destruct msg as [| | | | | |kv]; try done.
  cbn [last_assistant Py.get bind List.find]. unfold is_assistant at 1.
  cbn [field].
  destruct (Py.dict_lookup kv "role") as [[| | | |r| |]|];
    cbn [default from_option id PyObj.eq_str]; try apply IH.
  destruct (bool_decide (r = "assistant")); [|apply IH].
  change (default (JString "") (Py.dict_lookup kv "content"))
    with (content_of (JObject kv)).
  destruct (content_of (JObject kv)) as [| | | |s|blocks|];
    try by intros [= <-].
  intros H. apply bind_Ok_inv in H as (t & Ht & [= <-]).
  cbn [kept_content]. by rewrite (joined_text_returns _ _ Ht).
Qed.

Lemma updated_check_returns (content : json) (u : bool) :
  (if Py.truthy (kept_content content) then
     let* lower_msg := PyObj.lower (kept_content content) in
     Ok (PyStr.any_in update_indicators lower_msg)
   else Ok false) = Ok u →
  u = PyStr.any_in update_indicators (PyStr.lower (message_text content)).
Proof.
  pose proof (no_keyword_in_empty _ update_indicators_nonempty) as Hempty.
  assert (Hs : ∀ s, (if Py.truthy (JString s) then
                       let* lower_msg := PyObj.lower (JString s) in
                       Ok (PyStr.any_in update_indicators lower_msg)
                     else Ok false) = Ok u →
                    u = PyStr.any_in update_indicators (PyStr.lower s)).
  { intros [|c s]; cbn [Py.truthy PyObj.lower bind PyStr.lower];
      [rewrite Hempty|]; by intros [= <-]. }
  destruct content as [|b|z|f|s|items|kv];
    cbn [kept_content message_text PyStr.lower]; rewrite ?Hempty;
    try apply Hs.
  - by intros [= <-].
  - by destruct (Py.truthy (JBool b)); [|intros [= <-]].
  - by destruct (Py.truthy (JInt z)); [|intros [= <-]].
  - by destruct (Py.truthy (JFloat f)); [|intros [= <-]].
  - by destruct (Py.truthy (JObject kv)); [|intros [= <-]].
Qed.

Section CompletedRuns.

Variable json_loads : string → parsed.

(** Whatever the input and the environment, a run of [main] that
    returns has loaded a transcript, returns 0 and has printed one
    object: the one the computed conditions select. *)
Lemma main_returns (w : world) (stdin : stdin_view) (hook_input : json)
    (out : list json) (rc : Z) :
  json_load json_loads stdin = Parsed hook_input →
  main json_loads w stdin = Ok (out, rc) →
  ∃ transcript,
    the_transcript json_loads w hook_input = Ok transcript
    ∧ rc = 0
    ∧ out = [if should_block_b w hook_input (messages_of transcript)
             then block_obj else approve_obj].
Proof.
  intros Hin. unfold main, the_transcript. rewrite Hin.
  destruct hook_input as [| | | | | |kv]; try done.
  cbn [Py.get bind]. intros H.
  apply bind_Ok_inv in H as (tr & Htr & H). exists tr. split; [done|].
  unfold should_block_b. cbn [field] in *.
  destruct (Py.truthy (default (JBool false)
                         (Py.dict_lookup kv "stop_hook_active")));
    [by injection H as <- <-|].
  destruct (path_exists w ".good-pm"); [|by injection H as <- <-].
  destruct (path_exists w ".good-pm/session"); [|by injection H as <- <-].
  cbn [negb andb] in *.
  apply bind_Ok_inv in H as (msgs & Hmsgs & H).
  apply bind_Ok_inv in H as ([tu pm] & Hscan & H).
  apply scan_messages_returns in Hscan as [= -> ->]. cbn [orb] in H.
  unfold messages_of. rewrite Hmsgs.
  rewrite <- negb_orb in H.
  destruct (existsb tool_use_in msgs || existsb (keyword_in pm_keywords) msgs);
    cbn [negb andb] in *; [|by injection H as <- <-].
  unfold PyObj.reversed in H. rewrite Hmsgs in H. cbn [bind] in H.
  apply bind_Ok_inv in H as (last & Hlast & H).
  apply last_assistant_returns in Hlast as ->.
  apply bind_Ok_inv in H as (u & Hu & H).
  unfold updated_b, keyword_in.
  destruct (List.find is_assistant (reverse msgs)) as [m|].
  - apply updated_check_returns in Hu as ->.
    by destruct (PyStr.any_in update_indicators _); injection H as <- <-.
  - cbn [Py.truthy] in Hu. injection Hu as <-. by injection H as <- <-.
Qed.

End CompletedRuns.

(** ** When a run ends in a traceback *)

Lemma joined_text_returns_wf (blocks : list json) (s : string) :
  joined_text blocks = Ok s → Forall wf_block blocks.
Proof.
  unfold joined_text, PyObj.join. intros H.
  apply bind_Ok_inv in H as (items & Hitems & H).
  apply bind_Ok_inv in H as (parts & Hparts & _). clear s.
  revert items parts Hitems Hparts.
  induction blocks as [|block blocks IH]; intros items parts; [constructor|].
  destruct block as [| | | | | |kv]; try done. cbn [text_items Py.get bind].
  intros Hitems Hparts. constructor.
  - cbn [wf_block]. unfold is_type. cbn [field].
    intros Hty v Hv. revert Hitems Hparts. rewrite Hv.
    destruct (Py.dict_lookup kv "type") as [[| | | |t| |]|]; try done.
    cbn [default from_option id PyObj.eq_str]. rewrite Hty.
    intros Hitems. apply bind_Ok_inv in Hitems as (ts & _ & [= <-]).
    destruct v; try done. eauto.
  - revert Hitems Hparts.
    destruct (Py.dict_lookup kv "type") as [[| | | |t| |]|];
      cbn [default from_option id PyObj.eq_str]; try apply IH.
    destruct (bool_decide (t = "text")); [|apply IH].
    intros Hitems. apply bind_Ok_inv in Hitems as (ts & Hts & [= <-]).
    destruct (default (JString "") (Py.dict_lookup kv "text")); try done.
    cbn [PyObj.all_str]. intros Hparts.
    apply bind_Ok_inv in Hparts as (ss & Hss & _). by eapply IH.
Qed.

Lemma scan_message_scannable (a b : bool) (msg : json) :
  scannable msg →
  scan_message (a, b) msg
  = Ok (a || tool_use_in msg, b || keyword_in pm_keywords msg).
Proof.
  intros [Hobj Hc]. destruct msg as [| | | | | |kv]; try done.
  unfold scan_message, tool_use_in, keyword_in. cbn [Py.get bind].
  revert Hc.
  change (default (JString "") (Py.dict_lookup kv "content"))
    with (content_of (JObject kv)).
  pose proof (no_keyword_in_empty _ pm_keywords_nonempty) as Hempty.
  destruct (content_of (JObject kv)) as [| | | |s|blocks|];
    cbn [bind message_text PyStr.lower joinable];
    rewrite ?Hempty, ?orb_false_r; try done.
  intros Hc.
  rewrite any_tool_use_ok by (eapply Forall_impl; eauto using wf_block_object).
  by rewrite joined_text_ok.
Qed.

Lemma scan_message_returns_scannable (a b : bool) (msg : json)
    (r : bool * bool) :
  scan_message (a, b) msg = Ok r → scannable msg.
Proof.
  destruct msg as [| | | | | |kv]; try done.
  unfold scan_message, scannable. cbn [Py.get bind].
  change (default (JString "") (Py.dict_lookup kv "content"))
    with (content_of (JObject kv)).
  destruct (content_of (JObject kv)) as [| | | |s|blocks|]; try done.
  intros H. split; [done|]. cbn [joinable].
  apply bind_Ok_inv in H as (tu & _ & H).
  apply bind_Ok_inv in H as (pm & Hpm & _).
  apply bind_Ok_inv in Hpm as (text & Htext & _).
  by eapply joined_text_returns_wf.
Qed.

Lemma scan_messages_scannable (a b : bool) (msgs : list json) :
  (∃ r, scan_messages (a, b) msgs = Ok r) ↔ Forall scannable msgs.
Proof.
  split.
  - intros [r H]. revert a b H.
    induction msgs as [|msg msgs IH]; intros a b; [constructor|].
    cbn [scan_messages]. intros H.
    apply bind_Ok_inv in H as ([a' b'] & Hf & H). constructor.
    + by eapply scan_message_returns_scannable.
    + by eapply IH.
  - intros H. revert a b.
    induction H as [|msg msgs Hm _ IH]; intros a b; cbn [scan_messages].
    + eauto.
    + rewrite scan_message_scannable by done. cbn [bind]. apply IH.
Qed.

Lemma last_assistant_scannable (l : list json) :
  Forall scannable l →
  last_assistant l
  = Ok (match List.find is_assistant l with
        | Some m => kept_content (content_of m)
        | None => JNull
        end).
Proof.
  induction 1 as [|msg l [Hobj Hc] _ IH]; [done|].
  destruct msg as [| | | | | |kv]; try done.
  cbn [last_assistant Py.get bind List.find]. unfold is_assistant at 1.
  cbn [field].
  destruct (Py.dict_lookup kv "role") as [[| | | |r| |]|];
    cbn [default from_option id PyObj.eq_str]; try done.
  destruct (bool_decide (r = "assistant")); [|done]. revert Hc.
  change (default (JString "") (Py.dict_lookup kv "content"))
    with (content_of (JObject kv)).
  destruct (content_of (JObject kv)) as [| | | |s|blocks|];
    cbn [joinable kept_content]; try done.
  intros Hc. by rewrite joined_text_ok.
Qed.

Lemma updated_check_returns_wf (content : json) :
  joinable content →
  (∃ u, (if Py.truthy (kept_content content) then
           let* lower_msg := PyObj.lower (kept_content content) in
           Ok (PyStr.any_in update_indicators lower_msg)
         else Ok false) = Ok u)
  ↔ wf_content content.
Proof.
  intros Hj. split.
  - intros [u H].
    destruct content as [|b|z|f|s|items|kv]; cbn [wf_content]; try done;
      cbn [kept_content] in H.
    + by destruct (Py.truthy (JBool b)).
    + by destruct (Py.truthy (JInt z)).
    + by destruct (Py.truthy (JFloat f)).
    + by destruct (Py.truthy (JObject kv)).
  - intros Hwf. rewrite updated_check_ok by done. eauto.
Qed.

Section Runs.

Variable json_loads : string → parsed.

(** Past the guards, [main] returns exactly on the transcripts that are
    fit for its loops. *)
Lemma main_completes_iff (w : world) (stdin : stdin_view)
    (kv : list (string * json)) (transcript : json) :
  json_load json_loads stdin = Parsed (JObject kv) →
  the_transcript json_loads w (JObject kv) = Ok transcript →
  guards_pass w (JObject kv) = true →
  (∃ out rc, main json_loads w stdin = Ok (out, rc))
  ↔ transcript_fit transcript.
Proof.
  intros Hin Ht Hguards. unfold transcript_fit.
  unfold guards_pass in Hguards. cbn [field] in Hguards.
  apply andb_true_iff in Hguards as [Hguards Hsess].
  apply andb_true_iff in Hguards as [Hstop Hpm].
  apply negb_true_iff in Hstop.
  unfold main. rewrite Hin.
  unfold the_transcript in Ht. cbn [Py.get bind] in Ht |- *.
  rewrite Ht, Hstop, Hpm, Hsess.
  cbn [bind negb]. unfold PyObj.reversed.
  destruct (PyObj.iter transcript) as [t|e0]; cbn [bind].
  2:{ split; [by intros (? & ? & ?) | by intros (? & ? & _)]. }
  transitivity
    (Forall scannable t
     ∧ (has_tool_use t ∨ pm_activity t →
        ∀ m, last_assistant_is t m → wf_content (content_of m))).
  2:{ split; [intros [? ?]; by exists t|].
      by intros (msgs & [= <-] & ? & ?). }
  rewrite <- tool_use_spec, <- pm_activity_spec, <- orb_true_iff.
  unfold last_assistant_is. setoid_rewrite <- find_reverse_some.
  destruct (scan_messages (false, false) t) as [[tu pm]|e] eqn:Hscan;
    cbn [bind].
  2:{ split; [by intros (? & ? & ?)|]. intros [Hsc _].
      apply (scan_messages_scannable false false) in Hsc as [r Hr].
      congruence. }
  assert (Hsc : Forall scannable t)
    by (apply (scan_messages_scannable false false); eauto).
  apply scan_messages_returns in Hscan as [= -> ->]. cbn [orb].
  rewrite <- negb_orb.
  destruct (existsb tool_use_in t || existsb (keyword_in pm_keywords) t)
    eqn:Hact; cbn [negb].
  2:{ split; [intros _; split; [done | intros [=]] | intros _].
      by eexists _, _. }
  rewrite last_assistant_scannable by (by apply Forall_reverse). cbn [bind].
  destruct (List.find is_assistant (reverse t)) as [m|] eqn:Hf.
  - assert (Hj : joinable (content_of m)).
    { apply find_some in Hf as [Hm _]. apply list_elem_of_In in Hm.
      rewrite elem_of_reverse in Hm.
      by destruct (proj1 (Forall_forall _ _) Hsc m Hm). }
    pose proof (updated_check_returns_wf (content_of m) Hj) as Hiff.
    split.
    + intros (out & status & H). split; [done|]. intros _ m' [= <-].
      apply Hiff.
      destruct (if Py.truthy (kept_content (content_of m)) then _ else _)
        as [u|e]; [eauto | done].
    + intros [_ Hwf]. pose proof (Hwf eq_refl m eq_refl) as Hwf'.
      apply Hiff in Hwf' as [u ->]. cbn [bind].
      destruct u; by eexists _, _.
  - cbn [Py.truthy bind].
    split; [intros _; split; [done | by intros _ m [=]] | intros _].
    by eexists _, _.
Qed.

(** When a guard ends the run, [main] approves, whatever the
    transcript. *)
Lemma main_guarded (w : world) (stdin : stdin_view) (hook_input transcript : json) :
  json_load json_loads stdin = Parsed hook_input →
  the_transcript json_loads w hook_input = Ok transcript →
  guards_pass w hook_input = false →
  main json_loads w stdin = Ok ([approve_obj], 0).
Proof.
  intros Hin Ht Hguards. unfold main. rewrite Hin.
  unfold the_transcript in Ht.
  destruct hook_input as [| | | | | |kv]; try done.
  cbn [Py.get bind] in Ht |- *. rewrite Ht. cbn [bind].
  unfold guards_pass in Hguards. cbn [field] in Hguards.
  destruct (Py.truthy (default (JBool false)
                         (Py.dict_lookup kv "stop_hook_active"))); [done|].
  destruct (path_exists w ".good-pm"); [|done].
  destruct (path_exists w ".good-pm/session"); [|done].
  done.
Qed.

(** What the process shows of a run of [main]. *)
Lemma run_of_main (w : world) (stdin : stdin_view) (out : list json) (rc : Z) :
  main json_loads w stdin = Ok (out, rc) →
  run json_loads w stdin
  = if stdout_closed json_loads w stdin then Exited [] 120 else Exited out rc.
Proof. unfold run. by intros ->. Qed.

Lemma run_exited_iff (w : world) (stdin : stdin_view) :
  (∃ out status, run json_loads w stdin = Exited out status)
  ↔ ∃ out rc, main json_loads w stdin = Ok (out, rc).
Proof.
  unfold run. destruct (main json_loads w stdin) as [[out rc]|e].
  - split; [by eexists _, _|]. intros _.
    destruct (stdout_closed json_loads w stdin); by eexists _, _.
  - split; [by intros (? & ? & ?) | by intros (? & ? & ?)].
Qed.




(** X1.  Whatever the input, the transcript and the environment: when
    [main] returns, it has loaded a transcript, returns 0, and has
    printed exactly one object, the block object when the conditions of
    [should_block] hold of the messages of that transcript and the
    approve object when they do not. *)
Theorem completed_run_decides (w : world) (stdin : stdin_view)
    (hook_input : json) (out : list json) (rc : Z) :
  json_load json_loads stdin = Parsed hook_input →
  main json_loads w stdin = Ok (out, rc) →
  ∃ transcript,
    the_transcript json_loads w hook_input = Ok transcript
    ∧ rc = 0
    ∧ (out = [block_obj]
       ∧ should_block w hook_input (messages_of transcript)
       ∨ out = [approve_obj]
         ∧ ¬ should_block w hook_input (messages_of transcript)).
Proof.
  intros Hin Hmain.
  destruct (main_returns json_loads w stdin hook_input out rc Hin Hmain)
    as (tr & Htr & -> & ->).
  exists tr. split; [done|]. split; [done|].
  rewrite <- should_block_spec.
  destruct (should_block_b w hook_input (messages_of tr)); [left | right]; done.
Qed.

(** X2.  When [stop_hook_active] is truthy, or [.good-pm] or
    [.good-pm/session] does not exist, the hook never blocks.  If
    loading the transcript raises, the process ends in that traceback.
    Otherwise [main] prints the approve object and returns 0, and the
    process exits with status 0 having printed it, unless the transcript
    path was descriptor 1, which [load_transcript] has closed: then
    nothing is printed and the status is 120. *)
Theorem guarded_run_never_blocks (w : world) (stdin : stdin_view)
    (hook_input : json) :
  json_load json_loads stdin = Parsed hook_input →
  Py.truthy (default (JBool false) (field hook_input "stop_hook_active"))
    = true
  ∨ path_exists w ".good-pm" = false
  ∨ path_exists w ".good-pm/session" = false →
  (∀ transcript,
     the_transcript json_loads w hook_input = Ok transcript →
     main json_loads w stdin = Ok ([approve_obj], 0)
     ∧ run json_loads w stdin
       = if stdout_closed json_loads w stdin
         then Exited [] 120 else Exited [approve_obj] 0)
  ∧ (∀ e,
       the_transcript json_loads w hook_input = Raise e →
       run json_loads w stdin = Traceback e).
Proof.
  intros Hin Hguard. split.
  - intros tr Htr.
    assert (Hmain : main json_loads w stdin = Ok ([approve_obj], 0)).
    { apply (main_guarded w stdin hook_input tr Hin Htr).
      unfold guards_pass. destruct Hguard as [-> | [-> | ->]]; [done | |].
      - by rewrite andb_false_r.
      - by rewrite !andb_false_r. }
    split; [done | by apply run_of_main].
  - intros e He. unfold run, main. rewrite Hin.
    unfold the_transcript in He.
    destruct hook_input as [| | | | | |kv]; try (by injection He as <-).
    cbn [Py.get bind] in He |- *. by rewrite He.
Qed.

(** X3.  [main] reads its input through three fields only:
    [transcript_path], [stop_hook_active], and [transcript], the last
    one only when [transcript_path] is falsy.  Two inputs that agree on
    them give the same run. *)
Theorem main_reads_three_fields (w : world) (stdin1 stdin2 : stdin_view)
    (kv1 kv2 : list (string * json)) :
  json_load json_loads stdin1 = Parsed (JObject kv1) →
  json_load json_loads stdin2 = Parsed (JObject kv2) →
  Py.dict_lookup kv1 "transcript_path" = Py.dict_lookup kv2 "transcript_path" →
  Py.dict_lookup kv1 "stop_hook_active"
  = Py.dict_lookup kv2 "stop_hook_active" →
  Py.truthy (default JNull (Py.dict_lookup kv1 "transcript_path")) = true
  ∨ Py.dict_lookup kv1 "transcript" = Py.dict_lookup kv2 "transcript" →
  main json_loads w stdin1 = main json_loads w stdin2.
Proof.
  intros H1 H2 Hpath Hstop Htr. unfold main. rewrite H1, H2.
  cbn [Py.get bind]. rewrite <- Hpath, <- Hstop.
  destruct (Py.truthy (default JNull (Py.dict_lookup kv1 "transcript_path")));
    [done|].
  destruct Htr as [? | <-]; done.
Qed.


(** X10.  When the input is an object, the guards let the run through
    ([stop_hook_active] falsy, both directories there) and the
    transcript is a list, the process ends without a traceback exactly
    when every message is an object whose list content holds only
    well-formed blocks, and, if the transcript shows tool use or a PM
    keyword, the content of the last assistant message is a string, a
    list, or a falsy value. *)
Theorem run_completes_iff (w : world) (stdin : stdin_view)
    (kv : list (string * json)) (t : list json) :
  json_load json_loads stdin = Parsed (JObject kv) →
  the_transcript json_loads w (JObject kv) = Ok (JArray t) →
  Py.truthy (default (JBool false) (Py.dict_lookup kv "stop_hook_active"))
    = false →
  path_exists w ".good-pm" = true →
  path_exists w ".good-pm/session" = true →
  (∃ out status, run json_loads w stdin = Exited out status)
  ↔ Forall scannable t
    ∧ (has_tool_use t ∨ pm_activity t →
       ∀ m, last_assistant_is t m → wf_content (content_of m)).
Proof.
  intros Hin Ht Hstop Hpm Hsess.
  rewrite run_exited_iff.
  rewrite (main_completes_iff w stdin kv (JArray t) Hin Ht).
  2:{ unfold guards_pass. cbn [field]. by rewrite Hstop, Hpm, Hsess. }
  unfold transcript_fit. cbn [PyObj.iter]. split.
  - by intros (msgs & [= <-] & ? & ?).
  - intros [? ?]. by exists t.
Qed.


End Runs.

(** ** The runs of the scenarios *)







Lemma completed_run_decides_witness :
  ∃ transcript,
    the_transcript MiniJson.loads (transcript_world working_session)
      (JObject working_session_input) = Ok transcript
    ∧ 0 = 0
    ∧ ([block_obj] = [block_obj]
       ∧ should_block (transcript_world working_session)
           (JObject working_session_input) (messages_of transcript)
       ∨ [block_obj] = [approve_obj]
         ∧ ¬ should_block (transcript_world working_session)
               (JObject working_session_input) (messages_of transcript)).
Proof.
  apply (completed_run_decides MiniJson.loads
           (transcript_world working_session) stdin_with_path
           (JObject working_session_input) [block_obj] 0).
  - vm_compute. reflexivity.
  - vm_compute. reflexivity.
Defined.

Lemma guarded_run_never_blocks_witness :
  main MiniJson.loads (transcript_world working_session) stdin_after_block
  = Ok ([approve_obj], 0)
  ∧ run MiniJson.loads (transcript_world working_session) stdin_after_block
    = if stdout_closed MiniJson.loads (transcript_world working_session)
           stdin_after_block
      then Exited [] 120 else Exited [approve_obj] 0.
Proof.
  apply (proj1 (guarded_run_never_blocks MiniJson.loads
                  (transcript_world working_session) stdin_after_block
                  (JObject [("transcript_path", JString "t.jsonl");
                            ("stop_hook_active", JBool true)])
                  ltac:(vm_compute; reflexivity)
                  (or_introl eq_refl))
           (JArray working_session_entries)).
  vm_compute. reflexivity.
Defined.

(** With its own standard output given as transcript, the hook closes
    it: [main] prints and returns, and the process shows nothing. *)
Example descriptor_run_loses_output :
  main MiniJson.loads descriptor_world stdin_with_descriptor
  = Ok ([approve_obj], 0)
  ∧ run MiniJson.loads descriptor_world stdin_with_descriptor
    = Exited [] 120.
Proof. vm_compute. split; reflexivity. Qed.

Lemma main_reads_three_fields_witness :
  main MiniJson.loads (transcript_world working_session) stdin_with_path
  = main MiniJson.loads (transcript_world working_session)
      stdin_with_more_fields.
Proof.
  apply (main_reads_three_fields MiniJson.loads
           (transcript_world working_session) stdin_with_path
           stdin_with_more_fields working_session_input more_fields_input).
  - vm_compute. reflexivity.
  - vm_compute. reflexivity.
  - reflexivity.
  - reflexivity.
  - left. reflexivity.
Defined.


Lemma run_completes_iff_witness :
  (∃ out status,
     run MiniJson.loads (transcript_world number_content_session)
       stdin_with_path = Exited out status)
  ↔ Forall scannable number_content_entries
    ∧ (has_tool_use number_content_entries
       ∨ pm_activity number_content_entries →
       ∀ m, last_assistant_is number_content_entries m →
            wf_content (content_of m)).
Proof.
  apply (run_completes_iff MiniJson.loads
           (transcript_world number_content_session) stdin_with_path
           working_session_input number_content_entries).
  - vm_compute. reflexivity.
  - vm_compute. reflexivity.
  - reflexivity.
  - reflexivity.
  - reflexivity.
Defined.


(** ** The keywords *)

Lemma occurs_in_trans (k k' s : string) :
  occurs_in k k' → occurs_in k' s → occurs_in k s.
Proof.
  intros (a & b & ->) (pre & post & ->).
  exists (pre +:+ a), (b +:+ post). by rewrite !string_app_assoc.
Qed.

(** X9.  Three of the eight PM keywords contain another one
    ([.good-pm] contains [good-pm], [create-spec] contains [spec],
    [create-issues] contains [issue]), so the test
    [any(kw in text for kw in pm_keywords)] gives, on every text, what
    it gives with the five others alone. *)
Theorem pm_keywords_redundant (text : string) :
  PyStr.any_in pm_keywords text = PyStr.any_in core_keywords text.
Proof.
  apply eq_true_iff_eq. rewrite !any_in_spec. split.
  - intros (k & Hk & Hocc). unfold pm_keywords in Hk.
    repeat (apply elem_of_cons in Hk as [-> | Hk]);
      try (by apply elem_of_nil in Hk).
    + exists "good-pm". split; [repeat constructor|done].
    + exists "good-pm". split; [repeat constructor|].
      eapply occurs_in_trans; [|done]. by exists ".", "".
    + exists "spec". split; [repeat constructor|done].
    + exists "issue". split; [repeat constructor|done].
    + exists "spec". split; [repeat constructor|].
      eapply occurs_in_trans; [|done]. by exists "create-", "".
    + exists "issue". split; [repeat constructor|].
      eapply occurs_in_trans; [|done]. by exists "create-", "s".
    + exists "implementation". split; [repeat constructor|done].
    + exists "acceptance criteria". split; [repeat constructor|done].
  - intros (k & Hk & Hocc). exists k. split; [|done].
    unfold core_keywords in Hk. unfold pm_keywords.
    repeat (apply elem_of_cons in Hk as [-> | Hk]);
      try (by apply elem_of_nil in Hk);
      rewrite !elem_of_cons; auto 10.
Qed.


